(** * Machine reconciler of the Azure cluster-api provider

    Shallow embedding of [pkg/cloud/azure/actuators/machine/reconciler.go].
    The external clients (virtual machines, network interfaces, VM
    extensions, machine registry, node inventory, token issuance) are
    modelled by an environment [Env] of responses; every call to one of
    them is appended to a trace, and the mutable [MachineScope] is threaded
    through a small state monad. *)

From Stdlib Require Import String List Bool ZArith Lia.
Import ListNotations.
Open Scope string_scope.

(** ** Data model *)

(** Constants of [v1alpha1]: values of the [set] label and VM states. *)
Definition Node : string := "node".
Definition ControlPlane : string := "controlplane".
Definition VMStateSucceeded : string := "Succeeded".
Definition VMStateUpdating : string := "Updating".

(** [DefaultBootstrapTokenTTL = 10 * time.Minute], a [time.Duration] in
    nanoseconds. *)
Definition Minute : Z := 60 * 1000000000.
Definition DefaultBootstrapTokenTTL : Z := 10 * Minute.

(** [apicorev1.ObjectReference] restricted to the fields the code fills. *)
Record ObjectReference := mkObjectReference {
  ref_Kind : string;
  ref_APIVersion : string;
  ref_Name : string
}.

(** A node of the cluster's node inventory. *)
Record KNode := mkKNode {
  node_Kind : string;
  node_APIVersion : string;
  node_Name : string;
  node_ProviderID : string
}.

(** One page of [coreClient.Nodes().List]. *)
Record NodeList := mkNodeList {
  nl_Items : list KNode;
  nl_Continue : string
}.

(** A machine of the cluster's machine registry ([clusterMachines.Items]):
    its name and [Spec.Versions.ControlPlane]. *)
Record MachineItem := mkMachineItem {
  mi_Name : string;
  mi_ControlPlaneVersion : string
}.

(** [clusterutil.IsControlPlaneMachine] of cluster-api: a machine is a
    control-plane machine when its control-plane version is set. *)
Definition IsControlPlaneMachine (m : MachineItem) : bool :=
  negb (String.eqb (mi_ControlPlaneVersion m) "").

(** [compute.VirtualMachine] as returned by the VM service: [ID] (a
    pointer), [ProvisioningState] and the hardware profile's size. *)
Record ComputeVM := mkComputeVM {
  cvm_ID : option string;
  cvm_ProvisioningState : string;
  cvm_VMSize : string
}.

(** [v1alpha1.VM], the provider VM translated by [converters.SDKToVM]. *)
Record VM := mkVM {
  vm_ID : option string;
  vm_State : string;
  vm_VMSize : string
}.

(** Modelled from the spec: [converters.SDKToVM] (not under src/), the
    translation of the provider VM into the provider-observed state. *)
Definition SDKToVM (v : ComputeVM) : VM :=
  {| vm_ID := cvm_ID v; vm_State := cvm_ProvisioningState v;
     vm_VMSize := cvm_VMSize v |}.

(** [v1alpha1.AzureMachineProviderSpec] (the fields read here). *)
Record AzureMachineProviderSpec := mkProviderSpec {
  VMSize : string;
  SSHPublicKey : string;
  OSDisk : string;
  Image : string
}.

(** [MachineStatus]: provider status fields written by the reconciler. *)
Record MachineStatus := mkMachineStatus {
  VMID : option string;
  VMState : option string
}.

(** The cluster-api [Machine]: name, [Labels["set"]] (the empty string when
    the label is absent), annotations ([None] is a nil map),
    [Spec.ProviderID] and [Status.NodeRef]. *)
Record Machine := mkMachine {
  m_Name : string;
  m_SetLabel : string;
  m_Annotations : option (list (string * string));
  m_ProviderID : option string;
  m_NodeRef : option ObjectReference
}.

(** [actuators.MachineScope]; [ClusterConfig] is a pointer whose only field
    read here is [AdminKubeconfig]. *)
Record MachineScope := mkScope {
  sc_Machine : Machine;
  sc_ClusterName : string;
  sc_MachineConfig : AzureMachineProviderSpec;
  sc_MachineStatus : MachineStatus;
  sc_ClusterConfig : option string
}.

(** [s.scope.Name()] is the machine's name. *)
Definition scope_Name (sc : MachineScope) : string := m_Name (sc_Machine sc).

(** Specs handed to the services. *)
Record NicSpec := mkNicSpec {
  nic_Name : string;
  nic_VnetName : string;
  nic_SubnetName : string;
  nic_PublicLoadBalancerName : string;
  nic_InternalLoadBalancerName : string;
  nic_NatRule : Z
}.

Record VMSpec := mkVMSpec {
  vms_Name : string;
  vms_NICName : string;
  vms_SSHKeyData : string;
  vms_Size : string;
  vms_OSDisk : string;
  vms_Image : string
}.

Record ExtSpec := mkExtSpec {
  ext_Name : string;
  ext_VMName : string;
  ext_ScriptData : string
}.

(** External calls, in the order the code issues them. *)
Inductive call :=
| ListMachines
| GetVM (name : string)
| GetVMExt (name vmname : string)
| CreateNIC (spec : NicSpec)
| CreateVM (spec : VMSpec)
| CreateVMExt (spec : ExtSpec)
| DeleteVM (name : string)
| DeleteNIC (spec : NicSpec)
| CreateBootstrapToken (kubeconfig : string) (ttl : Z)
| ListNodes (continue : string).

(** Errors: an error of an external client (its text), an error built by
    [errors.Errorf] / [errors.New] at a given site, or [errors.Wrap]. *)
Inductive errkind :=
| UnknownSetLabel (set : string)
| EmptyKubeconfig
| GetVMFailed (inner : string)
| IncorrectVMInterface
| ImmutableState
| InstanceIDEmpty
| NoNodeFound
| NilDereference.

Inductive error :=
| Ext (e : string)
| Errorf (k : errkind)
| Wrap (msg : string) (inner : error).

(** [errors.Cause]. *)
Fixpoint cause (e : error) : error :=
  match e with
  | Wrap _ i => cause i
  | _ => e
  end.

(** Response of a [Get] of a service: the [interface{}] payload (nil or a
    value) and the error. *)
Definition get_result (A : Type) : Type := (option A * option string)%type.

Inductive result (A : Type) : Type :=
| ROk (a : A)
| RErr (e : string).
Arguments ROk {A} a.
Arguments RErr {A} e.

(** The environment: the responses of the external collaborators. *)
Record Env := mkEnv {
  e_machines : result (list MachineItem);
  e_vm_get : string -> get_result ComputeVM;
  e_ext_get : string -> string -> get_result unit;
  e_nic_create : NicSpec -> option string;
  e_vm_create : VMSpec -> option string;
  e_ext_create : ExtSpec -> option string;
  e_vm_delete : string -> option string;
  e_nic_delete : NicSpec -> option string;
  e_issue_token : string -> Z -> result string;
  e_startup_script : MachineScope -> string -> result string;
  e_b64decode : string -> string * option string;
  e_b64encode : string -> string;
  e_core_client : string -> option string;
  e_list_nodes : string -> result NodeList;
  (** bound on the number of node pages fetched before the loop is
      considered non-terminating *)
  e_page_fuel : nat;
  (** the [azure.Generate...Name] helpers *)
  e_vnet_name : string -> string;
  e_node_subnet_name : string -> string;
  e_cp_subnet_name : string -> string;
  e_public_lb_name : string -> string;
  e_internal_lb_name : string -> string
}.

(** ** The monad: state = trace of external calls and the machine scope *)

Record St := mkSt {
  st_trace : list call;
  st_scope : MachineScope
}.

Inductive outcome (A : Type) : Type :=
| Ok (a : A)
| Fail (e : error)
| Diverge.
Arguments Ok {A} a.
Arguments Fail {A} e.
Arguments Diverge {A}.

Definition M (A : Type) : Type := St -> outcome A * St.

Definition ret {A} (a : A) : M A := fun s => (Ok a, s).
Definition fail {A} (e : error) : M A := fun s => (Fail e, s).
Definition bind {A B} (m : M A) (f : A -> M B) : M B :=
  fun s => match m s with
           | (Ok a, s') => f a s'
           | (Fail e, s') => (Fail e, s')
           | (Diverge, s') => (Diverge, s')
           end.
(** [if err != nil { return ..., handler(err) }] around a sub-call. *)
Definition catch {A} (m : M A) (h : error -> M A) : M A :=
  fun s => match m s with
           | (Fail e, s') => h e s'
           | r => r
           end.

Notation "x <- m ;; k" := (bind m (fun x => k))
  (at level 61, m at next level, right associativity).
Notation "m ;;; k" := (bind m (fun _ => k))
  (at level 61, right associativity).

Definition get_scope : M MachineScope := fun s => (Ok (st_scope s), s).
Definition put_scope (sc : MachineScope) : M unit :=
  fun s => (Ok tt, {| st_trace := st_trace s; st_scope := sc |}).
(** Issue an external call with the given response. *)
Definition ext_call {A} (c : call) (resp : A) : M A :=
  fun s => (Ok resp, {| st_trace := st_trace s ++ [c]; st_scope := st_scope s |}).
(** Wrap the error of a sub-computation. *)
Definition wrap {A} (msg : string) (m : M A) : M A :=
  catch m (fun e => fail (Wrap msg e)).
(** An [error] result of a client, as [if err != nil { return wrap(err) }]. *)
Definition check_err (msg : string) (r : option string) : M unit :=
  match r with
  | Some e => fail (Wrap msg (Ext e))
  | None => ret tt
  end.

(** [strings.Contains(s, sub)]. *)
Fixpoint contains (s sub : string) : bool :=
  if String.prefix sub s then true
  else match s with
       | EmptyString => false
       | String _ s' => contains s' sub
       end.

(** Scope setters for the fields the reconciler writes. *)
Definition set_machine (sc : MachineScope) (m : Machine) : MachineScope :=
  {| sc_Machine := m; sc_ClusterName := sc_ClusterName sc;
     sc_MachineConfig := sc_MachineConfig sc;
     sc_MachineStatus := sc_MachineStatus sc;
     sc_ClusterConfig := sc_ClusterConfig sc |}.
Definition set_status (sc : MachineScope) (ms : MachineStatus) : MachineScope :=
  {| sc_Machine := sc_Machine sc; sc_ClusterName := sc_ClusterName sc;
     sc_MachineConfig := sc_MachineConfig sc;
     sc_MachineStatus := ms;
     sc_ClusterConfig := sc_ClusterConfig sc |}.
Definition with_annotations (m : Machine) (a : option (list (string * string))) : Machine :=
  {| m_Name := m_Name m; m_SetLabel := m_SetLabel m; m_Annotations := a;
     m_ProviderID := m_ProviderID m; m_NodeRef := m_NodeRef m |}.
Definition with_providerID (m : Machine) (p : option string) : Machine :=
  {| m_Name := m_Name m; m_SetLabel := m_SetLabel m; m_Annotations := m_Annotations m;
     m_ProviderID := p; m_NodeRef := m_NodeRef m |}.
Definition with_nodeRef (m : Machine) (r : option ObjectReference) : Machine :=
  {| m_Name := m_Name m; m_SetLabel := m_SetLabel m; m_Annotations := m_Annotations m;
     m_ProviderID := m_ProviderID m; m_NodeRef := r |}.

(** Go map assignment [m[k] = v] on an association list. *)
Definition map_set (k v : string) (l : list (string * string)) : list (string * string) :=
  (k, v) :: filter (fun kv => negb (String.eqb (fst kv) k)) l.

Section Reconciler.

Variable env : Env.

(** ** [isMachineOutdated] *)
Definition isMachineOutdated (machineSpec : AzureMachineProviderSpec) (vm : VM) : bool :=
  (* VM Size *)
  if negb (String.eqb (VMSize machineSpec) (vm_VMSize vm)) then true
  else false.

(** ** [isNodeJoin] *)

(** The loop over [clusterMachines.Items] of the [ControlPlane] case. *)
Fixpoint scan_control_plane (items : list MachineItem) : M bool :=
  match items with
  | [] => ret false
  | cm :: rest =>
      if negb (IsControlPlaneMachine cm) then scan_control_plane rest
      else
        vmr <- ext_call (GetVM (mi_Name cm)) (e_vm_get env (mi_Name cm)) ;;
        match vmr with
        | (None, Some _) => ret false
        | (_, Some e) => fail (Wrap "failed to verify existence of machine" (Ext e))
        | (_, None) =>
            vmExt <- ext_call (GetVMExt "startupScript" (mi_Name cm))
                              (e_ext_get env "startupScript" (mi_Name cm)) ;;
            match vmExt with
            | (None, Some _) => ret false
            | _ => ret true
            end
        end
  end.

Definition isNodeJoin : M bool :=
  clusterMachines <- ext_call ListMachines (e_machines env) ;;
  match clusterMachines with
  | RErr e => fail (Wrap "failed to retrieve machines in cluster" (Ext e))
  | ROk items =>
      sc <- get_scope ;;
      let set := m_SetLabel (sc_Machine sc) in
      if String.eqb set Node then ret true
      else if String.eqb set ControlPlane then scan_control_plane items
      else fail (Errorf (UnknownSetLabel set))
  end.

(** ** [checkControlPlaneMachines] *)
Definition checkControlPlaneMachines : M string :=
  isJoin <- wrap "failed to determine whether machine should join cluster" isNodeJoin ;;
  if isJoin then
    sc <- get_scope ;;
    match sc_ClusterConfig sc with
    | None => fail (Errorf EmptyKubeconfig)
    | Some kubeconfig =>
        tok <- ext_call (CreateBootstrapToken kubeconfig DefaultBootstrapTokenTTL)
                        (e_issue_token env kubeconfig DefaultBootstrapTokenTTL) ;;
        match tok with
        | RErr e => fail (Wrap "failed to create new bootstrap token" (Ext e))
        | ROk t => ret t
        end
    end
  else ret "".

(** ** [Create] *)

(** The body of [Create] after the control-plane check. *)
Definition create_resources (bootstrapToken : string) : M unit :=
  sc <- get_scope ;;
  let name := m_Name (sc_Machine sc) in
  let cname := sc_ClusterName sc in
  let base := {| nic_Name := name ++ "-nic"; nic_VnetName := e_vnet_name env cname;
                 nic_SubnetName := ""; nic_PublicLoadBalancerName := "";
                 nic_InternalLoadBalancerName := ""; nic_NatRule := 0 |} in
  let set := m_SetLabel (sc_Machine sc) in
  let nicSpec :=
    if String.eqb set Node then
      Some {| nic_Name := nic_Name base; nic_VnetName := nic_VnetName base;
              nic_SubnetName := e_node_subnet_name env cname;
              nic_PublicLoadBalancerName := ""; nic_InternalLoadBalancerName := "";
              nic_NatRule := 0 |}
    else if String.eqb set ControlPlane then
      Some {| nic_Name := nic_Name base; nic_VnetName := nic_VnetName base;
              nic_SubnetName := e_cp_subnet_name env cname;
              nic_PublicLoadBalancerName := e_public_lb_name env cname;
              nic_InternalLoadBalancerName := e_internal_lb_name env cname;
              nic_NatRule := 0 |}
    else None in
  match nicSpec with
  | None => fail (Errorf (UnknownSetLabel set))
  | Some networkInterfaceSpec =>
      r <- ext_call (CreateNIC networkInterfaceSpec) (e_nic_create env networkInterfaceSpec) ;;
      check_err "Unable to create VM network interface" r ;;;
      (* the decoding error is wrapped and dropped *)
      let decoded := fst (e_b64decode env (SSHPublicKey (sc_MachineConfig sc))) in
      let vmSpec := {| vms_Name := name; vms_NICName := nic_Name networkInterfaceSpec;
                       vms_SSHKeyData := decoded;
                       vms_Size := VMSize (sc_MachineConfig sc);
                       vms_OSDisk := OSDisk (sc_MachineConfig sc);
                       vms_Image := Image (sc_MachineConfig sc) |} in
      r <- ext_call (CreateVM vmSpec) (e_vm_create env vmSpec) ;;
      check_err "failed to create or get machine" r ;;;
      match e_startup_script env sc bootstrapToken with
      | RErr e => fail (Wrap "failed to get vm startup script" (Ext e))
      | ROk scriptData =>
          let vmExtSpec := {| ext_Name := "startupScript"; ext_VMName := name;
                              ext_ScriptData := e_b64encode env scriptData |} in
          (* [if err != nil { }]: the error is ignored *)
          _ <- ext_call (CreateVMExt vmExtSpec) (e_ext_create env vmExtSpec) ;;
          sc <- get_scope ;;
          let m := sc_Machine sc in
          let ann := match m_Annotations m with None => [] | Some a => a end in
          put_scope (set_machine sc (with_annotations m
                       (Some (map_set "cluster-api-provider-azure" "true" ann))))
      end
  end.

Definition Create : M unit :=
  bootstrapToken <- wrap "failed to check control plane machines in cluster"
                         checkControlPlaneMachines ;;
  create_resources bootstrapToken.

(** ** [Update] *)
Definition Update : M unit :=
  sc <- get_scope ;;
  let name := m_Name (sc_Machine sc) in
  vmr <- ext_call (GetVM name) (e_vm_get env name) ;;
  match vmr with
  | (_, Some e) => fail (Errorf (GetVMFailed e))
  | (None, None) => fail (Errorf IncorrectVMInterface)
  | (Some vm, None) =>
      if isMachineOutdated (sc_MachineConfig sc) (SDKToVM vm)
      then fail (Errorf ImmutableState)
      else ret tt
  end.

(** ** [Delete] *)
Definition Delete : M unit :=
  sc <- get_scope ;;
  let name := m_Name (sc_Machine sc) in
  r <- ext_call (DeleteVM name) (e_vm_delete env name) ;;
  check_err "failed to delete machine" r ;;;
  let networkInterfaceSpec :=
    {| nic_Name := name ++ "-nic"; nic_VnetName := e_vnet_name env (sc_ClusterName sc);
       nic_SubnetName := ""; nic_PublicLoadBalancerName := "";
       nic_InternalLoadBalancerName := ""; nic_NatRule := 0 |} in
  r <- ext_call (DeleteNIC networkInterfaceSpec) (e_nic_delete env networkInterfaceSpec) ;;
  check_err "Unable to delete network interface" r.

(** ** [getNodeReference] *)

(** The first node of a page whose provider id contains [instanceID]. *)
Fixpoint find_node (instanceID : string) (items : list KNode) : option KNode :=
  match items with
  | [] => None
  | node :: rest =>
      if contains (node_ProviderID node) instanceID then Some node
      else find_node instanceID rest
  end.

(** The [for { ... }] pagination loop; running out of [fuel] stands for the
    loop not terminating. *)
Fixpoint node_loop (fuel : nat) (instanceID continue : string) : M ObjectReference :=
  match fuel with
  | O => fun s => (Diverge, s)
  | S fuel' =>
      nodeList <- ext_call (ListNodes continue) (e_list_nodes env continue) ;;
      match nodeList with
      | RErr e => fail (Wrap "failed to query cluster nodes" (Ext e))
      | ROk nl =>
          match find_node instanceID (nl_Items nl) with
          | Some node =>
              ret {| ref_Kind := node_Kind node; ref_APIVersion := node_APIVersion node;
                     ref_Name := node_Name node |}
          | None =>
              if String.eqb (nl_Continue nl) "" then fail (Errorf NoNodeFound)
              else node_loop fuel' instanceID (nl_Continue nl)
          end
      end
  end.

Definition getNodeReference : M ObjectReference :=
  sc <- get_scope ;;
  match VMID (sc_MachineStatus sc) with
  | None => fail (Errorf InstanceIDEmpty)
  | Some instanceID =>
      match sc_ClusterConfig sc with
      | None => fail (Errorf EmptyKubeconfig)
      | Some kubeconfig =>
          match e_core_client env kubeconfig with
          | Some e => fail (Wrap "failed to retrieve corev1 client for cluster" (Ext e))
          | None => node_loop (e_page_fuel env) instanceID ""
          end
      end
  end.

(** ** [isVMExists] *)
Definition isVMExists : M bool :=
  sc <- get_scope ;;
  let name := scope_Name sc in
  vmr <- ext_call (GetVM name) (e_vm_get env name) ;;
  match vmr with
  | (None, Some _) => ret false
  | (_, Some e) => fail (Wrap "Failed to get vm" (Ext e))
  | (None, None) => fail (Errorf IncorrectVMInterface)
  | (Some vm, None) =>
      vmExt <- ext_call (GetVMExt "startupScript" name) (e_ext_get env "startupScript" name) ;;
      match vmExt with
      | (None, Some _) => ret false
      | (_, Some e) => fail (Wrap "failed to get vm extension" (Ext e))
      | (_, None) =>
          let vmState := cvm_ProvisioningState vm in
          sc <- get_scope ;;
          put_scope (set_status sc {| VMID := cvm_ID vm; VMState := Some vmState |}) ;;;
          ret true
      end
  end.

(** ** [Exists] *)
Definition Exists : M bool :=
  exists_ <- isVMExists ;;
  if negb exists_ then ret false
  else
    sc <- get_scope ;;
    match VMState (sc_MachineStatus sc), VMID (sc_MachineStatus sc) with
    | None, _ => fail (Errorf NilDereference)
    | Some st, vmid =>
        if String.eqb st VMStateSucceeded || String.eqb st VMStateUpdating then
          (* [klog.Infof("Machine %v is ...", *s.scope.MachineStatus.VMID)] *)
          match vmid with
          | None => fail (Errorf NilDereference)
          | Some id =>
              let m := sc_Machine sc in
              (match m_ProviderID m with
               | Some p => if String.eqb p "" then
                             put_scope (set_machine sc (with_providerID m
                                          (Some ("azure:////" ++ id))))
                           else ret tt
               | None => put_scope (set_machine sc (with_providerID m
                                      (Some ("azure:////" ++ id))))
               end) ;;;
              (* Set the Machine NodeRef. *)
              sc <- get_scope ;;
              match m_NodeRef (sc_Machine sc) with
              | Some _ => ret true
              | None =>
                  catch
                    (nodeRef <- getNodeReference ;;
                     sc <- get_scope ;;
                     put_scope (set_machine sc (with_nodeRef (sc_Machine sc) (Some nodeRef))) ;;;
                     ret true)
                    (fun _ => ret true)
              end
          end
        else ret false
    end.

End Reconciler.

(** ** Auxiliary definitions for the statements *)

(** Result of the join decision for the first control-plane machine of the
    registry, read off the VM and extension responses. *)
Definition probe_outcome (env : Env) (cm : MachineItem) : outcome bool :=
  match e_vm_get env (mi_Name cm) with
  | (None, Some _) => Ok false
  | (_, Some e) => Fail (Wrap "failed to verify existence of machine" (Ext e))
  | (_, None) =>
      match e_ext_get env "startupScript" (mi_Name cm) with
      | (None, Some _) => Ok false
      | _ => Ok true
      end
  end.

(** The machine scope with another [set] label. *)
Definition relabel (st : St) (l : string) : St :=
  let sc := st_scope st in
  let m := sc_Machine sc in
  {| st_trace := st_trace st;
     st_scope := set_machine sc {| m_Name := m_Name m; m_SetLabel := l;
                                   m_Annotations := m_Annotations m;
                                   m_ProviderID := m_ProviderID m; m_NodeRef := m_NodeRef m |} |}.

(** The error a machine with an unknown label ends in: the registry
    listing's when it fails, the unknown-label error otherwise. *)
Definition unknown_label_cause (env : Env) (set : string) : error :=
  match e_machines env with
  | RErr e => Ext e
  | ROk _ => Errorf (UnknownSetLabel set)
  end.

Definition is_token_call (c : call) : bool :=
  match c with
  | CreateBootstrapToken _ _ => true
  | _ => false
  end.

Definition count_tokens (calls : list call) : nat := length (filter is_token_call calls).

(** Calls that only read provider or cluster state. *)
Definition is_read_call (c : call) : bool :=
  match c with
  | ListMachines | GetVM _ | GetVMExt _ _ | ListNodes _ => true
  | _ => false
  end.

(** A computation that only appends read calls to the trace. *)
Definition read_only {A} (m : M A) : Prop :=
  forall s, exists calls, st_trace (snd (m s)) = (st_trace s ++ calls)%list /\
                          forallb is_read_call calls = true.

(** Go map lookup [m[k]] on the association list of annotations. *)
Fixpoint ann_lookup (k : string) (l : list (string * string)) : option string :=
  match l with
  | [] => None
  | (k', v) :: rest => if String.eqb k' k then Some v else ann_lookup k rest
  end.

(** The reference [getNodeReference] builds from a node. *)
Definition node_ref (n : KNode) : ObjectReference :=
  {| ref_Kind := node_Kind n; ref_APIVersion := node_APIVersion n; ref_Name := node_Name n |}.

(** The node-listing calls of the pagination loop from token [t] to the last
    listed token [t_last]: each page before the last lists no matching
    node and hands on a non-empty continuation token, which is the token of
    the next call. *)
Inductive page_chain (env : Env) (id : string) : string -> string -> list call -> Prop :=
| chain_last : forall t, page_chain env id t t [ListNodes t]
| chain_next : forall t nl t_last rest,
    e_list_nodes env t = ROk nl ->
    find_node id (nl_Items nl) = None ->
    nl_Continue nl <> "" ->
    page_chain env id (nl_Continue nl) t_last rest ->
    page_chain env id t t_last (ListNodes t :: rest).

(** The result the loop returns after listing its last page [t]; a
    non-empty continuation token there means the page bound was hit. *)
Definition page_outcome (env : Env) (id t : string) : outcome ObjectReference :=
  match e_list_nodes env t with
  | RErr e => Fail (Wrap "failed to query cluster nodes" (Ext e))
  | ROk nl =>
      match find_node id (nl_Items nl) with
      | Some n => Ok (node_ref n)
      | None => if String.eqb (nl_Continue nl) "" then Fail (Errorf NoNodeFound) else Diverge
      end
  end.

(** ** Concrete configurations *)

Definition ex_vm (state : string) : ComputeVM :=
  {| cvm_ID := Some "/subscriptions/s/vm-1"; cvm_ProvisioningState := state;
     cvm_VMSize := "Standard_B2ms" |}.

(** An environment whose varying responses are given and whose other
    collaborators succeed. *)
Definition test_env (machines : result (list MachineItem))
    (vm_get : string -> get_result ComputeVM)
    (ext_get : string -> string -> get_result unit)
    (ext_create : option string)
    (vm_delete : option string)
    (list_nodes : string -> result NodeList) : Env :=
  {| e_machines := machines;
     e_vm_get := vm_get;
     e_ext_get := ext_get;
     e_nic_create := fun _ => None;
     e_vm_create := fun _ => None;
     e_ext_create := fun _ => ext_create;
     e_vm_delete := fun _ => vm_delete;
     e_nic_delete := fun _ => None;
     e_issue_token := fun _ _ => ROk "abcdef.0123456789abcdef";
     e_startup_script := fun _ tok => ROk ("#!/bin/bash token=" ++ tok);
     e_b64decode := fun s => (s, None);
     e_b64encode := fun s => s;
     e_core_client := fun _ => None;
     e_list_nodes := list_nodes;
     e_page_fuel := 4;
     e_vnet_name := fun c => c ++ "-vnet";
     e_node_subnet_name := fun c => c ++ "-node-subnet";
     e_cp_subnet_name := fun c => c ++ "-controlplane-subnet";
     e_public_lb_name := fun c => c ++ "-public-lb";
     e_internal_lb_name := fun c => c ++ "-internal-lb" |}.

Definition vm_found (state : string) : string -> get_result ComputeVM :=
  fun _ => (Some (ex_vm state), None).
Definition vm_not_found : string -> get_result ComputeVM :=
  fun _ => (None, Some "ResourceNotFound").
Definition ext_found : string -> string -> get_result unit := fun _ _ => (Some tt, None).
Definition ext_not_found : string -> string -> get_result unit :=
  fun _ _ => (None, Some "ResourceNotFound").
Definition one_page : string -> result NodeList :=
  fun _ => ROk {| nl_Items := [{| node_Kind := "Node"; node_APIVersion := "v1";
                                  node_Name := "node-1";
                                  node_ProviderID := "azure:///subscriptions/s/vm-1" |}];
                  nl_Continue := "" |}.

Definition test_scope (name set : string) : MachineScope :=
  {| sc_Machine := {| m_Name := name; m_SetLabel := set; m_Annotations := None;
                      m_ProviderID := None; m_NodeRef := None |};
     sc_ClusterName := "demo";
     sc_MachineConfig := {| VMSize := "Standard_B2ms"; SSHPublicKey := "c3NoLXJzYQ==";
                            OSDisk := "Linux"; Image := "ubuntu" |};
     sc_MachineStatus := {| VMID := None; VMState := None |};
     sc_ClusterConfig := Some "admin-kubeconfig" |}.

(** A control-plane machine whose scope has no cluster credentials. *)
Definition test_scope_nocreds (name : string) : MachineScope :=
  let sc := test_scope name ControlPlane in
  {| sc_Machine := sc_Machine sc; sc_ClusterName := sc_ClusterName sc;
     sc_MachineConfig := sc_MachineConfig sc; sc_MachineStatus := sc_MachineStatus sc;
     sc_ClusterConfig := None |}.

Definition test_st (name set : string) : St :=
  {| st_trace := []; st_scope := test_scope name set |}.

(** Unfolding of the monad. *)
Ltac mon := cbv beta iota delta [bind ret fail catch wrap ext_call get_scope put_scope
                                  check_err scope_Name] in *; simpl in *.

(** ** Tests *)

Example delete_test :
  Delete (test_env (ROk []) vm_not_found ext_found None None one_page) (test_st "worker-1" Node)
  = (Ok tt, {| st_trace := [DeleteVM "worker-1";
                             DeleteNIC {| nic_Name := "worker-1-nic"; nic_VnetName := "demo-vnet";
                                          nic_SubnetName := ""; nic_PublicLoadBalancerName := "";
                                          nic_InternalLoadBalancerName := ""; nic_NatRule := 0 |}];
               st_scope := test_scope "worker-1" Node |}).
Proof. reflexivity. Qed.

(** ** Delete *)

(** C7: within Delete, the VM is deleted before the network interface; if
    the VM deletion fails, its error is returned (wrapped) and the network
    interface is never deleted. *)
Theorem Delete_vm_before_nic : forall env st,
  let name := m_Name (sc_Machine (st_scope st)) in
  match e_vm_delete env name with
  | Some e =>
      Delete env st = (Fail (Wrap "failed to delete machine" (Ext e)),
                       {| st_trace := st_trace st ++ [DeleteVM name]; st_scope := st_scope st |})
  | None =>
      exists r nic, nic_Name nic = name ++ "-nic" /\
        Delete env st = (r, {| st_trace := st_trace st ++ [DeleteVM name; DeleteNIC nic];
                               st_scope := st_scope st |})
  end.
Proof.
  intros env [tr sc]. cbv zeta. unfold Delete. mon.
  destruct (e_vm_delete env (m_Name (sc_Machine sc))) as [e|]; simpl.
  - reflexivity.
  - destruct (e_nic_delete env _); simpl;
      (do 2 eexists; split; [|rewrite <- app_assoc; reflexivity]); reflexivity.
Qed.

(** C10 (as amended): Delete issues at most two external calls, deleting
    the VM and then, only when that succeeded, the network interface; it
    never calls the extension service (nor any other) and leaves the
    machine scope unchanged. *)
Theorem Delete_calls : forall env st,
  let name := m_Name (sc_Machine (st_scope st)) in
  let st' := snd (Delete env st) in
  st_scope st' = st_scope st /\
  exists calls, st_trace st' = (st_trace st ++ calls)%list /\
    ((e_vm_delete env name <> None /\ calls = [DeleteVM name]) \/
     (e_vm_delete env name = None /\ exists nic, calls = [DeleteVM name; DeleteNIC nic])).
Proof.
  intros env [tr sc]. cbv zeta. unfold Delete. mon.
  destruct (e_vm_delete env (m_Name (sc_Machine sc))) as [e|] eqn:E; simpl.
  - split; [reflexivity|]. exists [DeleteVM (m_Name (sc_Machine sc))].
    split; [reflexivity|]. left. split; [congruence|reflexivity].
  - destruct (e_nic_delete env _); simpl; (split; [reflexivity|]);
      (eexists; split; [rewrite <- app_assoc; reflexivity|]);
      right; (split; [reflexivity|]); eexists; reflexivity.
Qed.

(** C10: a Delete whose VM deletion fails issues one external call, not
    two. *)
Lemma Delete_not_two_calls :
  length (st_trace (snd (Delete (test_env (ROk []) vm_not_found ext_found
                                         None (Some "Conflict") one_page)
                                (test_st "worker-1" Node)))) = 1.
Proof. reflexivity. Qed.

(** ** Update *)

(** C3: when the provider VM is read and its size differs from the desired
    size, Update fails with the immutable-state error after that single
    read, touching nothing else; the immutable check is exactly the
    comparison of the VM sizes. *)
Theorem Update_immutable_size : forall env st vm,
  let name := m_Name (sc_Machine (st_scope st)) in
  e_vm_get env name = (Some vm, None) ->
  VMSize (sc_MachineConfig (st_scope st)) <> cvm_VMSize vm ->
  Update env st = (Fail (Errorf ImmutableState),
                   {| st_trace := (st_trace st ++ [GetVM name])%list; st_scope := st_scope st |}) /\
  (forall spec v, isMachineOutdated spec v = true <-> VMSize spec <> vm_VMSize v).
Proof.
  intros env [tr sc] vm name Hget Hsize. cbv zeta in *. simpl in *. split.
  - unfold Update. mon. subst name. rewrite Hget. unfold isMachineOutdated. simpl.
    apply String.eqb_neq in Hsize. rewrite Hsize. reflexivity.
  - intros spec v. unfold isMachineOutdated.
    destruct (String.eqb_spec (VMSize spec) (vm_VMSize v)); simpl; split; congruence.
Qed.

Lemma Update_immutable_size_witness :
  let env := test_env (ROk []) (fun _ => (Some {| cvm_ID := Some "/vm"; cvm_ProvisioningState := "Succeeded";
                                                 cvm_VMSize := "Standard_D4s" |}, None))
                      ext_found None None one_page in
  Update env (test_st "cp-1" ControlPlane) =
    (Fail (Errorf ImmutableState),
     {| st_trace := [GetVM "cp-1"]; st_scope := test_scope "cp-1" ControlPlane |}).
Proof.
  intros env. apply (Update_immutable_size env (test_st "cp-1" ControlPlane)
                       {| cvm_ID := Some "/vm"; cvm_ProvisioningState := "Succeeded";
                          cvm_VMSize := "Standard_D4s" |}).
  - reflexivity.
  - simpl. discriminate.
Defined.

(** ** Join decision *)

(** The scan of [isNodeJoin] only looks at control-plane machines. *)
Lemma scan_control_plane_filter : forall env items s,
  scan_control_plane env items s =
  scan_control_plane env (filter IsControlPlaneMachine items) s.
Proof.
  intros env items; induction items as [|cm rest IH]; intros s; [reflexivity|].
  simpl. destruct (IsControlPlaneMachine cm) eqn:E; simpl; rewrite ?E; simpl;
    [reflexivity|apply IH].
Qed.

Lemma scan_first_control_plane : forall env cm rest s,
  fst (scan_control_plane env (cm :: rest) s) =
  if IsControlPlaneMachine cm then probe_outcome env cm
  else fst (scan_control_plane env rest s).
Proof.
  intros env cm rest s. simpl. destruct (IsControlPlaneMachine cm); simpl; [|reflexivity].
  mon. unfold probe_outcome.
  destruct (e_vm_get env (mi_Name cm)) as [[vm|] [e|]]; simpl; try reflexivity;
  destruct (e_ext_get env "startupScript" (mi_Name cm)) as [[[]|] [e'|]]; reflexivity.
Qed.

(** C1 (as amended): the join decision first lists the machine registry
    and fails when the listing fails. Otherwise a [Node] machine joins; a
    [ControlPlane] machine probes the first control-plane machine of the
    registry, the machine itself included: it does not join when that
    machine's VM is not found or its extension is not found, fails when the
    VM lookup returns another error, and joins otherwise; with no
    control-plane machine in the registry it does not join. *)
Theorem isNodeJoin_decision : forall env st,
  let set := m_SetLabel (sc_Machine (st_scope st)) in
  match e_machines env with
  | RErr e => fst (isNodeJoin env st) = Fail (Wrap "failed to retrieve machines in cluster" (Ext e))
  | ROk items =>
      (set = Node -> fst (isNodeJoin env st) = Ok true) /\
      (set = ControlPlane ->
         fst (isNodeJoin env st) =
         match filter IsControlPlaneMachine items with
         | [] => Ok false
         | cm :: _ => probe_outcome env cm
         end)
  end.
Proof.
  intros env [tr sc]. cbv zeta. unfold isNodeJoin. mon.
  destruct (e_machines env) as [items|e]; [|reflexivity]. simpl. split.
  - intros ->. reflexivity.
  - intros ->. simpl. rewrite scan_control_plane_filter.
    destruct (filter IsControlPlaneMachine items) as [|cm rest] eqn:F; [reflexivity|].
    rewrite scan_first_control_plane.
    assert (Hcm : IsControlPlaneMachine cm = true).
    { assert (In cm (filter IsControlPlaneMachine items)) by (rewrite F; left; reflexivity).
      apply filter_In in H. tauto. }
    rewrite Hcm. reflexivity.
Qed.

(** C1: the registry may list the machine itself as its only control-plane
    machine; when its VM and extension are found, the join decision
    returns [true] although there is no other control-plane machine. A
    [Node] machine whose registry listing fails gets an error, not [true]. *)
Lemma isNodeJoin_self_probe :
  fst (isNodeJoin (test_env (ROk [{| mi_Name := "cp-1"; mi_ControlPlaneVersion := "1.13.0" |}])
                            (vm_found "Succeeded") ext_found None None one_page)
                  (test_st "cp-1" ControlPlane)) = Ok true /\
  fst (isNodeJoin (test_env (RErr "connection refused") (vm_found "Succeeded") ext_found
                            None None one_page)
                  (test_st "worker-1" Node))
  = Fail (Wrap "failed to retrieve machines in cluster" (Ext "connection refused")).
Proof. split; reflexivity. Qed.

Lemma isNodeJoin_decision_witness :
  fst (isNodeJoin (test_env (ROk [{| mi_Name := "worker-1"; mi_ControlPlaneVersion := "" |};
                                  {| mi_Name := "cp-1"; mi_ControlPlaneVersion := "1.13.0" |};
                                  {| mi_Name := "cp-2"; mi_ControlPlaneVersion := "1.13.0" |}])
                            (vm_found "Succeeded") ext_found None None one_page)
                  (test_st "cp-2" ControlPlane)) = Ok true.
Proof.
  pose proof (isNodeJoin_decision
                (test_env (ROk [{| mi_Name := "worker-1"; mi_ControlPlaneVersion := "" |};
                                {| mi_Name := "cp-1"; mi_ControlPlaneVersion := "1.13.0" |};
                                {| mi_Name := "cp-2"; mi_ControlPlaneVersion := "1.13.0" |}])
                          (vm_found "Succeeded") ext_found None None one_page)
                (test_st "cp-2" ControlPlane)) as H.
  simpl in H. destruct H as [_ H]. rewrite H by reflexivity. reflexivity.
Defined.

(** ** Unknown role label *)

(** C4 (as amended): for a machine whose [set] label is neither [Node] nor
    [ControlPlane], the join decision and Create fail, with the
    unknown-label error (or the registry listing's error when the listing
    fails), after exactly one external call, the machine-registry listing,
    so that no provider resource is touched and the scope is unchanged;
    Update does not read the label: its result and calls are the same as
    for any other label. *)
Theorem unknown_label_rejected : forall env st,
  let set := m_SetLabel (sc_Machine (st_scope st)) in
  set <> Node -> set <> ControlPlane ->
  let st1 := {| st_trace := (st_trace st ++ [ListMachines])%list; st_scope := st_scope st |} in
  (exists e, isNodeJoin env st = (Fail e, st1) /\ cause e = unknown_label_cause env set) /\
  (exists e, Create env st = (Fail e, st1) /\ cause e = unknown_label_cause env set) /\
  (forall l, fst (Update env (relabel st l)) = fst (Update env st) /\
             st_trace (snd (Update env (relabel st l))) = st_trace (snd (Update env st))).
Proof.
  intros env [tr sc] set Hn Hc st1. subst set st1. simpl in *.
  assert (HJ : exists e, isNodeJoin env {| st_trace := tr; st_scope := sc |} =
                 (Fail e, {| st_trace := (tr ++ [ListMachines])%list; st_scope := sc |}) /\
                 cause e = unknown_label_cause env (m_SetLabel (sc_Machine sc))).
  { unfold isNodeJoin, unknown_label_cause. mon.
    destruct (e_machines env) as [items|e].
    - apply String.eqb_neq in Hn, Hc. simpl. rewrite Hn, Hc. eexists; split; reflexivity.
    - eexists; split; reflexivity. }
  split; [exact HJ|]. split.
  - unfold Create, checkControlPlaneMachines, isNodeJoin, unknown_label_cause. mon.
    apply String.eqb_neq in Hn, Hc.
    destruct (e_machines env) as [items|e]; simpl; [rewrite Hn, Hc|];
      eexists; split; reflexivity.
  - intros l. unfold Update. mon.
    destruct (e_vm_get env (m_Name (sc_Machine sc))) as [[vm|] [e|]]; simpl; try (split; reflexivity).
    destruct (isMachineOutdated _ _); split; reflexivity.
Qed.

Lemma unknown_label_rejected_witness :
  exists e, Create (test_env (ROk []) (vm_found "Succeeded") ext_found None None one_page)
                   (test_st "m-1" "bogus")
            = (Fail e, {| st_trace := [ListMachines]; st_scope := test_scope "m-1" "bogus" |}).
Proof.
  destruct (unknown_label_rejected (test_env (ROk []) (vm_found "Succeeded") ext_found None None one_page)
              (test_st "m-1" "bogus")) as [_ [[e [H _]] _]].
  - simpl. discriminate.
  - simpl. discriminate.
  - exists e. exact H.
Defined.

(** C4: Update of a machine with an unknown label succeeds when the
    provider VM has the desired size, and the join decision of such a
    machine issues the registry listing. *)
Lemma unknown_label_update_succeeds :
  fst (Update (test_env (ROk []) (vm_found "Succeeded") ext_found None None one_page)
              (test_st "m-1" "bogus")) = Ok tt /\
  st_trace (snd (isNodeJoin (test_env (ROk []) (vm_found "Succeeded") ext_found None None one_page)
                            (test_st "m-1" "bogus"))) = [ListMachines].
Proof. split; reflexivity. Qed.

(** ** Bootstrap token *)

Lemma count_tokens_app : forall a b, count_tokens (a ++ b)%list = count_tokens a + count_tokens b.
Proof. intros a b. unfold count_tokens. rewrite filter_app, length_app. reflexivity. Qed.

(** The join decision only appends calls that are not token requests and
    leaves the scope unchanged. *)
Lemma scan_control_plane_frame : forall env items s,
  exists calls, snd (scan_control_plane env items s) =
                {| st_trace := (st_trace s ++ calls)%list; st_scope := st_scope s |} /\
                count_tokens calls = 0.
Proof.
  intros env items; induction items as [|cm rest IH]; intros [tr sc].
  - exists []. rewrite app_nil_r. split; reflexivity.
  - simpl. destruct (IsControlPlaneMachine cm); simpl; [|apply IH].
    mon. destruct (e_vm_get env (mi_Name cm)) as [[vm|] [e|]]; simpl;
      try (eexists; split; [reflexivity|reflexivity]);
      destruct (e_ext_get env "startupScript" (mi_Name cm)) as [[[]|] [e'|]]; simpl;
      eexists; (split; [rewrite <- app_assoc; reflexivity|reflexivity]).
Qed.

Lemma isNodeJoin_frame : forall env s,
  exists calls, snd (isNodeJoin env s) =
                {| st_trace := (st_trace s ++ calls)%list; st_scope := st_scope s |} /\
                count_tokens calls = 0.
Proof.
  intros env [tr sc]. unfold isNodeJoin. mon.
  destruct (e_machines env) as [items|e]; simpl.
  - destruct (m_SetLabel (sc_Machine sc) =? Node); simpl.
    + eexists; split; reflexivity.
    + destruct (m_SetLabel (sc_Machine sc) =? ControlPlane); simpl.
      * destruct (scan_control_plane_frame env items
                    {| st_trace := (tr ++ [ListMachines])%list; st_scope := sc |})
          as [calls [H Hc]].
        exists (ListMachines :: calls). simpl in H. rewrite <- app_assoc in H.
        split; [exact H|exact Hc].
      * eexists; split; reflexivity.
  - eexists; split; reflexivity.
Qed.

(** The resources part of Create requests no token. *)
Lemma create_resources_no_token : forall env tok s,
  exists calls, st_trace (snd (create_resources env tok s)) = (st_trace s ++ calls)%list /\
                count_tokens calls = 0.
Proof.
  intros env tok [tr sc]. unfold create_resources. mon.
  destruct (m_SetLabel (sc_Machine sc) =? Node); simpl;
  [|destruct (m_SetLabel (sc_Machine sc) =? ControlPlane); simpl;
    [|exists []; rewrite app_nil_r; split; reflexivity]];
  (destruct (e_nic_create env _); simpl;
   [eexists; split; reflexivity|]);
  (destruct (e_vm_create env _); simpl;
   [eexists; split; [rewrite <- app_assoc; reflexivity|reflexivity]|]);
  (destruct (e_startup_script env _ _); simpl;
   eexists; (split; [rewrite <- !app_assoc; reflexivity|reflexivity])).
Qed.

(** C6: across one Create, at most one bootstrap token is requested; a
    token is requested only when the join decision returned [true], always
    with a TTL of 10 minutes; and when the machine joins but the scope has
    no cluster credentials, Create fails. *)
Theorem Create_bootstrap_token : forall env st,
  exists calls,
    st_trace (snd (Create env st)) = (st_trace st ++ calls)%list /\
    count_tokens calls <= 1 /\
    (forall k ttl, In (CreateBootstrapToken k ttl) calls ->
       fst (isNodeJoin env st) = Ok true /\ ttl = 10 * (60 * 1000000000))%Z /\
    (fst (isNodeJoin env st) = Ok true -> sc_ClusterConfig (st_scope st) = None ->
       exists e, fst (Create env st) = Fail e).
Proof.
  intros env [tr sc].
  destruct (isNodeJoin_frame env {| st_trace := tr; st_scope := sc |}) as [c1 [H1 Hc1]].
  destruct (isNodeJoin env {| st_trace := tr; st_scope := sc |}) as [o s1] eqn:E.
  simpl in H1. subst s1.
  assert (Hno : forall k ttl, In (CreateBootstrapToken k ttl) c1 -> False).
  { intros k ttl Hin. unfold count_tokens in Hc1. apply length_zero_iff_nil in Hc1.
    assert (In (CreateBootstrapToken k ttl) (filter is_token_call c1))
      by (apply filter_In; split; [exact Hin|reflexivity]).
    rewrite Hc1 in H. exact H. }
  unfold Create, checkControlPlaneMachines. mon. rewrite E. simpl.
  destruct o as [[|]|e|].
  - destruct sc_ClusterConfig as [k|] eqn:Hcc; simpl.
    + destruct (e_issue_token env k DefaultBootstrapTokenTTL) as [t|e]; simpl.
      * destruct (create_resources_no_token env t
                    {| st_trace := ((tr ++ c1) ++ [CreateBootstrapToken k DefaultBootstrapTokenTTL])%list;
                       st_scope := sc |}) as [c2 [H2 Hc2]].
        simpl in H2. rewrite H2.
        exists (c1 ++ CreateBootstrapToken k DefaultBootstrapTokenTTL :: c2)%list.
        split; [rewrite <- !app_assoc; reflexivity|].
        split; [rewrite count_tokens_app; simpl; unfold count_tokens in *; simpl; lia|].
        split; [|intros _ Hn; discriminate Hn].
        intros k' ttl Hin. apply in_app_or in Hin as [Hin|[Heq|Hin]].
        -- destruct (Hno _ _ Hin).
        -- inversion Heq. split; reflexivity.
        -- exfalso. unfold count_tokens in Hc2. apply length_zero_iff_nil in Hc2.
           assert (In (CreateBootstrapToken k' ttl) (filter is_token_call c2))
             by (apply filter_In; split; [exact Hin|reflexivity]).
           rewrite Hc2 in H. exact H.
      * exists (c1 ++ [CreateBootstrapToken k DefaultBootstrapTokenTTL])%list.
        split; [rewrite <- app_assoc; reflexivity|].
        split; [rewrite count_tokens_app; unfold count_tokens in *; simpl; lia|].
        split; [|intros _ Hn; discriminate Hn].
        intros k' ttl Hin. apply in_app_or in Hin as [Hin|[Heq|[]]].
        -- destruct (Hno _ _ Hin).
        -- inversion Heq. split; reflexivity.
    + exists c1. split; [reflexivity|]. split; [lia|]. split.
      * intros k ttl Hin. destruct (Hno _ _ Hin).
      * intros _ _. eexists; reflexivity.
  - destruct (create_resources_no_token env ""
                {| st_trace := (tr ++ c1)%list; st_scope := sc |}) as [c2 [H2 Hc2]].
    simpl in H2. rewrite H2. exists (c1 ++ c2)%list.
    split; [rewrite <- app_assoc; reflexivity|].
    split; [rewrite count_tokens_app; lia|].
    split; [|intros Hj; discriminate Hj].
    intros k ttl Hin. exfalso. apply in_app_or in Hin as [Hin|Hin]; [exact (Hno _ _ Hin)|].
    unfold count_tokens in Hc2. apply length_zero_iff_nil in Hc2.
    assert (In (CreateBootstrapToken k ttl) (filter is_token_call c2))
      by (apply filter_In; split; [exact Hin|reflexivity]).
    rewrite Hc2 in H. exact H.
  - exists c1. split; [reflexivity|]. split; [lia|]. split.
    + intros k ttl Hin. destruct (Hno _ _ Hin).
    + intros Hj; discriminate Hj.
  - exists c1. split; [reflexivity|]. split; [lia|]. split.
    + intros k ttl Hin. destruct (Hno _ _ Hin).
    + intros Hj; discriminate Hj.
Qed.

Lemma Create_bootstrap_token_witness :
  exists e, fst (Create (test_env (ROk [{| mi_Name := "cp-1"; mi_ControlPlaneVersion := "1.13.0" |}])
                                  (vm_found "Succeeded") ext_found None None one_page)
                        {| st_trace := []; st_scope := test_scope_nocreds "cp-2" |}) = Fail e.
Proof.
  destruct (Create_bootstrap_token
              (test_env (ROk [{| mi_Name := "cp-1"; mi_ControlPlaneVersion := "1.13.0" |}])
                        (vm_found "Succeeded") ext_found None None one_page)
              {| st_trace := []; st_scope := test_scope_nocreds "cp-2" |})
    as [calls [_ [_ [_ H]]]].
  apply H; reflexivity.
Defined.

Example create_join_test :
  st_trace (snd (Create (test_env (ROk [{| mi_Name := "cp-1"; mi_ControlPlaneVersion := "1.13.0" |}])
                                  (vm_found "Succeeded") ext_found None None one_page)
                        (test_st "cp-2" ControlPlane)))
  = [ListMachines; GetVM "cp-1"; GetVMExt "startupScript" "cp-1";
     CreateBootstrapToken "admin-kubeconfig" 600000000000%Z;
     CreateNIC {| nic_Name := "cp-2-nic"; nic_VnetName := "demo-vnet";
                  nic_SubnetName := "demo-controlplane-subnet";
                  nic_PublicLoadBalancerName := "demo-public-lb";
                  nic_InternalLoadBalancerName := "demo-internal-lb"; nic_NatRule := 0 |};
     CreateVM {| vms_Name := "cp-2"; vms_NICName := "cp-2-nic"; vms_SSHKeyData := "c3NoLXJzYQ==";
                 vms_Size := "Standard_B2ms"; vms_OSDisk := "Linux"; vms_Image := "ubuntu" |};
     CreateVMExt {| ext_Name := "startupScript"; ext_VMName := "cp-2";
                    ext_ScriptData := "#!/bin/bash token=abcdef.0123456789abcdef" |}].
Proof. reflexivity. Qed.

(** ** Extension creation error *)

Lemma isNodeJoin_ok_label : forall env s b,
  fst (isNodeJoin env s) = Ok b ->
  m_SetLabel (sc_Machine (st_scope s)) = Node \/ m_SetLabel (sc_Machine (st_scope s)) = ControlPlane.
Proof.
  intros env [tr sc] b H. unfold isNodeJoin in H. mon.
  destruct (e_machines env) as [items|e]; simpl in H; [|discriminate H].
  destruct (String.eqb_spec (m_SetLabel (sc_Machine sc)) Node) as [Hn|_]; [left; exact Hn|].
  destruct (String.eqb_spec (m_SetLabel (sc_Machine sc)) ControlPlane) as [Hc|_];
    [right; exact Hc|discriminate H].
Qed.

Lemma checkControlPlaneMachines_frame : forall env s,
  st_scope (snd (checkControlPlaneMachines env s)) = st_scope s /\
  (forall tok, fst (checkControlPlaneMachines env s) = Ok tok ->
     m_SetLabel (sc_Machine (st_scope s)) = Node \/
     m_SetLabel (sc_Machine (st_scope s)) = ControlPlane).
Proof.
  intros env s.
  destruct (isNodeJoin_frame env s) as [c1 [H1 _]].
  pose proof (isNodeJoin_ok_label env s) as Hl.
  destruct (isNodeJoin env s) as [o s1] eqn:E. simpl in H1, Hl. subst s1.
  unfold checkControlPlaneMachines. mon. rewrite E. simpl.
  destruct o as [[|]|e|]; simpl.
  - destruct (sc_ClusterConfig (st_scope s)) as [k|]; simpl.
    + destruct (e_issue_token env k DefaultBootstrapTokenTTL); simpl;
        (split; [reflexivity|intros; eapply Hl; reflexivity]).
    + split; [reflexivity|intros tok H; discriminate H].
  - split; [reflexivity|intros; eapply Hl; reflexivity].
  - split; [reflexivity|intros tok H; discriminate H].
  - split; [reflexivity|intros tok H; discriminate H].
Qed.

(** C8: when the control-plane check, the network interface creation, the
    VM creation and the rendering of the startup script succeed, Create
    issues the extension creation and returns success whatever that call
    returns, an error included. *)
Theorem Create_ext_error_swallowed : forall env st tok script,
  fst (checkControlPlaneMachines env st) = Ok tok ->
  (forall n, e_nic_create env n = None) ->
  (forall v, e_vm_create env v = None) ->
  e_startup_script env (st_scope st) tok = ROk script ->
  fst (Create env st) = Ok tt /\
  exists spec, In (CreateVMExt spec) (st_trace (snd (Create env st))) /\
               ext_Name spec = "startupScript".
Proof.
  intros env st tok script Hchk Hnic Hvm Hscript.
  destruct (checkControlPlaneMachines_frame env st) as [Hsc Hlab].
  specialize (Hlab tok Hchk).
  destruct (checkControlPlaneMachines env st) as [o [tr1 sc1]] eqn:E.
  simpl in Hchk, Hsc. subst o sc1.
  unfold Create. mon. rewrite E. unfold create_resources. mon.
  rewrite Hscript.
  destruct Hlab as [Hl|Hl]; rewrite Hl.
  - simpl. rewrite Hnic. simpl. rewrite Hvm. simpl.
    split; [reflexivity|]. eexists; split; [apply in_or_app; right; left; reflexivity|].
    reflexivity.
  - simpl. rewrite Hnic. simpl. rewrite Hvm. simpl.
    split; [reflexivity|]. eexists; split; [apply in_or_app; right; left; reflexivity|].
    reflexivity.
Qed.

Lemma Create_ext_error_swallowed_witness :
  let env := {| e_machines := ROk []; e_vm_get := vm_not_found; e_ext_get := ext_not_found;
                e_nic_create := fun _ => None; e_vm_create := fun _ => None;
                e_ext_create := fun _ => Some "OperationNotAllowed";
                e_vm_delete := fun _ => None; e_nic_delete := fun _ => None;
                e_issue_token := fun _ _ => ROk "abcdef.0123456789abcdef";
                e_startup_script := fun _ tok => ROk ("#!/bin/bash token=" ++ tok);
                e_b64decode := fun s => (s, None); e_b64encode := fun s => s;
                e_core_client := fun _ => None; e_list_nodes := one_page; e_page_fuel := 4;
                e_vnet_name := fun c => c ++ "-vnet";
                e_node_subnet_name := fun c => c ++ "-node-subnet";
                e_cp_subnet_name := fun c => c ++ "-controlplane-subnet";
                e_public_lb_name := fun c => c ++ "-public-lb";
                e_internal_lb_name := fun c => c ++ "-internal-lb" |} in
  fst (Create env (test_st "cp-1" ControlPlane)) = Ok tt.
Proof.
  intros env.
  apply (Create_ext_error_swallowed env (test_st "cp-1" ControlPlane) "" "#!/bin/bash token=");
    reflexivity.
Defined.

(** ** Exists *)

(** C2: Exists returns [false] without an error when the VM is not found,
    when the VM is found but its extension is not found, and when the VM is
    found, the extension lookup reports no error and the VM state is
    neither [Succeeded] nor [Updating]; it returns [true] without an error
    when the VM (with an identifier) and its extension are found and the
    state is [Succeeded] or [Updating], whether the node-reference
    resolution succeeds or fails (when it terminates). *)
Theorem Exists_readiness : forall env st,
  let name := m_Name (sc_Machine (st_scope st)) in
  (forall e, e_vm_get env name = (None, Some e) -> fst (Exists env st) = Ok false) /\
  (forall vm e, e_vm_get env name = (Some vm, None) ->
     e_ext_get env "startupScript" name = (None, Some e) -> fst (Exists env st) = Ok false) /\
  (forall vm, e_vm_get env name = (Some vm, None) ->
     (forall x e, e_ext_get env "startupScript" name <> (Some x, Some e)) ->
     cvm_ProvisioningState vm <> VMStateSucceeded ->
     cvm_ProvisioningState vm <> VMStateUpdating ->
     fst (Exists env st) = Ok false) /\
  (forall vm x, e_vm_get env name = (Some vm, None) ->
     e_ext_get env "startupScript" name = (x, None) ->
     (cvm_ProvisioningState vm = VMStateSucceeded \/ cvm_ProvisioningState vm = VMStateUpdating) ->
     cvm_ID vm <> None ->
     (forall s, fst (getNodeReference env s) <> Diverge) ->
     fst (Exists env st) = Ok true).
Proof.
  intros env [tr sc]. cbv zeta. simpl. unfold Exists, isVMExists. split; [|split; [|split]].
  - intros e H. mon. rewrite H. reflexivity.
  - intros vm e H He. mon. rewrite H. simpl. rewrite He. reflexivity.
  - intros vm H He Hs Hu. mon. rewrite H. simpl.
    destruct (e_ext_get env "startupScript" (m_Name (sc_Machine sc))) as [[x|] [e|]] eqn:Ex;
      simpl; try reflexivity.
    + exfalso. exact (He x e eq_refl).
    + apply String.eqb_neq in Hs, Hu. rewrite Hs, Hu. reflexivity.
    + apply String.eqb_neq in Hs, Hu. rewrite Hs, Hu. reflexivity.
  - intros vm x H He Hst Hid Hterm. mon. rewrite H. simpl. rewrite He.
    destruct x as [[]|]; simpl;
    (assert (Hsu : (cvm_ProvisioningState vm =? VMStateSucceeded)
                   || (cvm_ProvisioningState vm =? VMStateUpdating) = true)
       by (destruct Hst as [Hst|Hst]; rewrite Hst; reflexivity);
     rewrite Hsu;
     destruct (cvm_ID vm) as [id|]; [|contradiction]; simpl;
     destruct (m_ProviderID (sc_Machine sc)) as [p|]; simpl;
     [destruct (p =? "")|]; simpl;
     destruct (m_NodeRef (sc_Machine sc)) as [r|]; simpl; try reflexivity;
     match goal with
     | |- context [getNodeReference env ?s] =>
         specialize (Hterm s); destruct (getNodeReference env s) as [[a|e|] s'];
         simpl; [reflexivity|reflexivity|contradiction]
     end).
Qed.

(** With single-page listings the node lookup terminates. *)
Lemma getNodeReference_single_page : forall env s,
  e_page_fuel env <> O ->
  (forall t, match e_list_nodes env t with ROk nl => nl_Continue nl = "" | RErr _ => True end) ->
  fst (getNodeReference env s) <> Diverge.
Proof.
  intros env [tr sc] Hf Hp. unfold getNodeReference. mon.
  destruct (VMID (sc_MachineStatus sc)) as [id|]; [|discriminate].
  destruct (sc_ClusterConfig sc) as [k|]; [|discriminate].
  destruct (e_core_client env k); [discriminate|].
  destruct (e_page_fuel env) as [|f]; [contradiction|]. simpl. mon.
  specialize (Hp ""). destruct (e_list_nodes env "") as [nl|e]; simpl; [|discriminate].
  destruct (find_node id (nl_Items nl)); simpl; [discriminate|].
  rewrite Hp. simpl. discriminate.
Qed.

Lemma Exists_readiness_witness :
  fst (Exists (test_env (ROk []) (vm_found "Updating") ext_found None None one_page)
              (test_st "cp-1" ControlPlane)) = Ok true.
Proof.
  destruct (Exists_readiness (test_env (ROk []) (vm_found "Updating") ext_found None None one_page)
              (test_st "cp-1" ControlPlane)) as [_ [_ [_ H]]].
  apply (H (ex_vm "Updating") (Some tt)).
  - reflexivity.
  - reflexivity.
  - right; reflexivity.
  - discriminate.
  - intros s. apply getNodeReference_single_page; [discriminate|].
    intros t. reflexivity.
Defined.

(** ** Node-identity resolution *)

(** C5: [getNodeReference] rejects only a nil VM identifier; an empty one
    passes the check, and as every provider id contains the empty string,
    the first listed node is returned. *)
Theorem getNodeReference_empty_id :
  let st := {| st_trace := [];
               st_scope := set_status (test_scope "cp-1" ControlPlane)
                                      {| VMID := Some ""; VMState := Some "Succeeded" |} |} in
  getNodeReference (test_env (ROk []) (vm_found "Succeeded") ext_found None None one_page) st
  = (Ok {| ref_Kind := "Node"; ref_APIVersion := "v1"; ref_Name := "node-1" |},
     {| st_trace := [ListNodes ""]; st_scope := st_scope st |}).
Proof. reflexivity. Qed.

(** The node lookup leaves the scope unchanged. *)
Lemma node_loop_scope : forall env fuel id t s,
  st_scope (snd (node_loop env fuel id t s)) = st_scope s.
Proof.
  intros env fuel; induction fuel as [|f IH]; intros id t [tr sc]; [reflexivity|].
  simpl. mon. destruct (e_list_nodes env t) as [nl|e]; simpl; [|reflexivity].
  destruct (find_node id (nl_Items nl)); simpl; [reflexivity|].
  destruct (nl_Continue nl =? ""); simpl; [reflexivity|]. apply IH.
Qed.

Lemma getNodeReference_scope : forall env s,
  st_scope (snd (getNodeReference env s)) = st_scope s.
Proof.
  intros env [tr sc]. unfold getNodeReference. mon.
  destruct (VMID (sc_MachineStatus sc)); [|reflexivity].
  destruct (sc_ClusterConfig sc) as [k|]; [|reflexivity].
  destruct (e_core_client env k); [reflexivity|].
  apply (node_loop_scope env _ _ _ {| st_trace := tr; st_scope := sc |}).
Qed.

(** ** Status fields *)

Ltac exists_cases env :=
  repeat (simpl; match goal with
  | |- context [getNodeReference env ?s] =>
      let Hg := fresh "Hg" in
      pose proof (getNodeReference_scope env s) as Hg;
      destruct (getNodeReference env s) as [[? | ? | ] [? ?]]; simpl in Hg; subst
  | |- context [match ?x with Some _ => _ | None => _ end] => destruct x eqn:?
  | |- context [if ?b then _ else _] => destruct b eqn:?
  end); simpl.

(** C9 (as amended): Exists writes [NodeRef] only while it is nil and
    never changes it once set; it overwrites [VMID] and [VMState] with the
    provider's current values on every call that finds both the VM and its
    extension (so writing the same values again leaves the status as it
    was), and leaves them untouched otherwise. *)
Theorem Exists_status_fields : forall env st,
  let name := m_Name (sc_Machine (st_scope st)) in
  let sc' := st_scope (snd (Exists env st)) in
  (forall r, m_NodeRef (sc_Machine (st_scope st)) = Some r -> m_NodeRef (sc_Machine sc') = Some r) /\
  (forall vm x, e_vm_get env name = (Some vm, None) ->
     e_ext_get env "startupScript" name = (x, None) ->
     sc_MachineStatus sc' = {| VMID := cvm_ID vm; VMState := Some (cvm_ProvisioningState vm) |}) /\
  ((forall vm x, e_vm_get env name = (Some vm, None) ->
     e_ext_get env "startupScript" name <> (x, None)) ->
   sc_MachineStatus sc' = sc_MachineStatus (st_scope st)).
Proof.
  intros env [tr sc]. cbv zeta. simpl. unfold Exists, isVMExists. mon.
  split; [|split].
  - intros r Hr.
    destruct (e_vm_get env (m_Name (sc_Machine sc))) as [[vm|] [e|]]; simpl; try exact Hr.
    destruct (e_ext_get env "startupScript" (m_Name (sc_Machine sc))) as [[[]|] [e|]];
      simpl; try exact Hr; exists_cases env; congruence.
  - intros vm x Hv He. rewrite Hv. simpl. rewrite He.
    destruct x as [[]|]; exists_cases env; reflexivity.
  - intros Hne.
    destruct (e_vm_get env (m_Name (sc_Machine sc))) as [[vm|] [e|]] eqn:Ev; simpl;
      try reflexivity.
    destruct (e_ext_get env "startupScript" (m_Name (sc_Machine sc))) as [x [e|]] eqn:Ex;
      [destruct x; reflexivity|].
    exfalso. exact (Hne vm x eq_refl eq_refl).
Qed.

Lemma Exists_status_fields_witness :
  sc_MachineStatus (st_scope (snd (Exists (test_env (ROk []) (vm_found "Updating") ext_found
                                                     None None one_page)
                                          (test_st "cp-1" ControlPlane))))
  = {| VMID := Some "/subscriptions/s/vm-1"; VMState := Some "Updating" |}.
Proof.
  destruct (Exists_status_fields (test_env (ROk []) (vm_found "Updating") ext_found None None one_page)
              (test_st "cp-1" ControlPlane)) as [_ [H _]].
  apply (H (ex_vm "Updating") (Some tt)); reflexivity.
Defined.

(** C9: two successive Exists calls, while the VM moves from [Updating]
    to [Succeeded], write [VMState] twice with different values. *)
Lemma Exists_vmstate_set_twice :
  let s1 := snd (Exists (test_env (ROk []) (vm_found "Updating") ext_found None None one_page)
                        (test_st "cp-1" ControlPlane)) in
  let s2 := snd (Exists (test_env (ROk []) (vm_found "Succeeded") ext_found None None one_page) s1) in
  VMState (sc_MachineStatus (st_scope s1)) = Some "Updating" /\
  VMState (sc_MachineStatus (st_scope s2)) = Some "Succeeded".
Proof. split; reflexivity. Qed.

(** * Further properties of the reconciler *)

(** ** Substring test *)

Lemma prefix_app : forall p s, String.prefix p s = true <-> exists post, s = (p ++ post)%string.
Proof.
  induction p as [|a p IH]; intros [|b s]; simpl.
  - split; [intros _; exists ""; reflexivity|reflexivity].
  - split; [intros _; exists (String b s); reflexivity|reflexivity].
  - split; [discriminate|intros [post H]; discriminate H].
  - destruct (Ascii.ascii_dec a b) as [->|Hab].
    + rewrite IH. split; intros [post H]; exists post; [rewrite H|injection H]; auto.
    + split; [discriminate|intros [post H]; injection H; intros; congruence].
Qed.

Lemma contains_unfold : forall s sub,
  contains s sub = if String.prefix sub s then true
                   else match s with EmptyString => false | String _ s' => contains s' sub end.
Proof. intros [|c s] sub; reflexivity. Qed.

(** [contains] is [strings.Contains]: [sub] occurs in [s]. *)
Theorem contains_correct : forall s sub,
  contains s sub = true <-> exists pre post, s = (pre ++ sub ++ post)%string.
Proof.
  induction s as [|c s IH]; intros sub; rewrite contains_unfold;
    destruct (String.prefix sub _) eqn:P.
  - split; [intros _|reflexivity]. apply prefix_app in P as [post H].
    exists "", post. exact H.
  - split; [discriminate|]. intros [pre [post H]].
    destruct pre; [|discriminate H]. simpl in H.
    assert (Hp : String.prefix sub "" = true) by (apply prefix_app; exists post; exact H).
    congruence.
  - split; [intros _|reflexivity]. apply prefix_app in P as [post H].
    exists "", post. exact H.
  - rewrite IH. split.
    + intros [pre [post H]]. exists (String c pre), post. rewrite H. reflexivity.
    + intros [pre [post H]]. destruct pre as [|c' pre].
      * exfalso. assert (Hp : String.prefix sub (String c s) = true)
          by (apply prefix_app; exists post; exact H). congruence.
      * injection H as <- H. exists pre, post. exact H.
Qed.

(** [find_node] returns the first listed node whose provider id contains
    the identifier. *)
Lemma find_node_first : forall id items n,
  find_node id items = Some n <->
  exists before after, items = (before ++ n :: after)%list /\
    contains (node_ProviderID n) id = true /\
    Forall (fun m => contains (node_ProviderID m) id = false) before.
Proof.
  intros id items n; induction items as [|m rest IH]; simpl.
  - split; [discriminate|]. intros [before [after [H _]]]. destruct before; discriminate H.
  - destruct (contains (node_ProviderID m) id) eqn:C.
    + split.
      * intros H; injection H as <-. exists [], rest. auto.
      * intros [before [after [H [Cn F]]]]. destruct before as [|b before].
        -- injection H as <- _. reflexivity.
        -- injection H as <- _. inversion F; congruence.
    + rewrite IH. split.
      * intros [before [after [H [Cn F]]]]. exists (m :: before), after.
        rewrite H. auto.
      * intros [before [after [H [Cn F]]]]. destruct before as [|b before].
        -- injection H as <- _. congruence.
        -- injection H as <- H. inversion F; subst. exists before, after. auto.
Qed.

Lemma find_node_none : forall id items,
  find_node id items = None -> Forall (fun m => contains (node_ProviderID m) id = false) items.
Proof.
  intros id items; induction items as [|m rest IH]; simpl; intros H; [constructor|].
  destruct (contains (node_ProviderID m) id) eqn:C; [discriminate H|]. constructor; auto.
Qed.

(** ** Node pagination *)

Lemma node_loop_S : forall env f id t,
  node_loop env (S f) id t =
  bind (ext_call (ListNodes t) (e_list_nodes env t)) (fun nodeList =>
   match nodeList with
   | RErr e => fail (Wrap "failed to query cluster nodes" (Ext e))
   | ROk nl =>
       match find_node id (nl_Items nl) with
       | Some node => ret (node_ref node)
       | None => if String.eqb (nl_Continue nl) "" then fail (Errorf NoNodeFound)
                 else node_loop env f id (nl_Continue nl)
       end
   end).
Proof. reflexivity. Qed.

Arguments node_loop : simpl never.

Lemma node_loop_pages : forall env f id t s,
  exists calls t_last,
    snd (node_loop env (S f) id t s) =
      {| st_trace := (st_trace s ++ calls)%list; st_scope := st_scope s |} /\
    page_chain env id t t_last calls /\
    fst (node_loop env (S f) id t s) = page_outcome env id t_last.
Proof.
  intros env f; induction f as [|f IH]; intros id t [tr sc]; rewrite node_loop_S; mon;
    destruct (e_list_nodes env t) as [nl|e] eqn:L; simpl;
    try (exists [ListNodes t], t; unfold page_outcome; rewrite L;
         split; [reflexivity|split; [apply chain_last|reflexivity]]);
    (destruct (find_node id (nl_Items nl)) as [n|] eqn:F; simpl;
     [exists [ListNodes t], t; unfold page_outcome; rewrite L, F;
      split; [reflexivity|split; [apply chain_last|reflexivity]]|]);
    (destruct (String.eqb_spec (nl_Continue nl) "") as [Ce|Cne]; simpl;
     [exists [ListNodes t], t; unfold page_outcome; rewrite L, F, Ce;
      split; [reflexivity|split; [apply chain_last|reflexivity]]|]).
  - exists [ListNodes t], t. unfold page_outcome. rewrite L, F.
    apply String.eqb_neq in Cne. rewrite Cne. split; [reflexivity|split; [apply chain_last|reflexivity]].
  - destruct (IH id (nl_Continue nl) {| st_trace := (tr ++ [ListNodes t])%list;
                                         st_scope := sc |})
      as [calls [t_last [H1 [H2 H3]]]].
    simpl in H1. exists (ListNodes t :: calls), t_last.
    split; [rewrite H1, <- app_assoc; reflexivity|].
    split; [econstructor; eauto|exact H3].
Qed.

(** The pagination loop lists pages following the continuation tokens,
    starting from its token, stops at the first page listing a matching
    node, at an empty continuation token or at a listing error, and its
    result is read off that last page. *)
Theorem node_loop_chain : forall env f id t s,
  exists calls t_last,
    snd (node_loop env (S f) id t s) =
      {| st_trace := (st_trace s ++ calls)%list; st_scope := st_scope s |} /\
    page_chain env id t t_last calls /\
    fst (node_loop env (S f) id t s) = page_outcome env id t_last.
Proof. exact node_loop_pages. Qed.

Lemma getNodeReference_cases : forall env s,
  let sc := st_scope s in
  (VMID (sc_MachineStatus sc) = None -> getNodeReference env s = (Fail (Errorf InstanceIDEmpty), s)) /\
  (forall id, VMID (sc_MachineStatus sc) = Some id -> sc_ClusterConfig sc = None ->
     getNodeReference env s = (Fail (Errorf EmptyKubeconfig), s)) /\
  (forall id k, VMID (sc_MachineStatus sc) = Some id -> sc_ClusterConfig sc = Some k ->
     e_core_client env k = None -> e_page_fuel env <> O ->
     exists calls t_last,
       snd (getNodeReference env s) = {| st_trace := (st_trace s ++ calls)%list; st_scope := sc |} /\
       page_chain env id "" t_last calls /\
       fst (getNodeReference env s) = page_outcome env id t_last).
Proof.
  intros env [tr sc0] sc. subst sc. simpl. unfold getNodeReference. mon.
  split; [intros ->; reflexivity|split].
  - intros id -> ->. reflexivity.
  - intros id k -> -> -> Hf. destruct (e_page_fuel env) as [|f]; [contradiction|].
    apply (node_loop_pages env f id "" {| st_trace := tr; st_scope := sc0 |}).
Qed.

(** Node-identity resolution fails without any call when the VM identifier
    is unset or the cluster credentials are absent; otherwise (with a
    working client and a positive page bound) it pages from the empty
    token as above. *)
Theorem getNodeReference_steps : forall env s,
  let sc := st_scope s in
  (VMID (sc_MachineStatus sc) = None -> getNodeReference env s = (Fail (Errorf InstanceIDEmpty), s)) /\
  (forall id, VMID (sc_MachineStatus sc) = Some id -> sc_ClusterConfig sc = None ->
     getNodeReference env s = (Fail (Errorf EmptyKubeconfig), s)) /\
  (forall id k, VMID (sc_MachineStatus sc) = Some id -> sc_ClusterConfig sc = Some k ->
     e_core_client env k = None -> e_page_fuel env <> O ->
     exists calls t_last,
       snd (getNodeReference env s) = {| st_trace := (st_trace s ++ calls)%list; st_scope := sc |} /\
       page_chain env id "" t_last calls /\
       fst (getNodeReference env s) = page_outcome env id t_last).
Proof. exact getNodeReference_cases. Qed.

Lemma getNodeReference_steps_witness :
  exists calls t_last,
    snd (getNodeReference (test_env (ROk []) vm_not_found ext_found None None one_page)
           {| st_trace := []; st_scope := set_status (test_scope "cp-1" ControlPlane)
                                 {| VMID := Some "/subscriptions/s/vm-1"; VMState := Some "Succeeded" |} |})
    = {| st_trace := calls; st_scope := set_status (test_scope "cp-1" ControlPlane)
                                 {| VMID := Some "/subscriptions/s/vm-1"; VMState := Some "Succeeded" |} |} /\
    page_chain (test_env (ROk []) vm_not_found ext_found None None one_page)
               "/subscriptions/s/vm-1" "" t_last calls.
Proof.
  destruct (getNodeReference_steps (test_env (ROk []) vm_not_found ext_found None None one_page)
              {| st_trace := []; st_scope := set_status (test_scope "cp-1" ControlPlane)
                                 {| VMID := Some "/subscriptions/s/vm-1"; VMState := Some "Succeeded" |} |})
    as [_ [_ H]].
  destruct (H "/subscriptions/s/vm-1" "admin-kubeconfig") as [calls [t_last [H1 [H2 _]]]];
    try reflexivity; try discriminate.
  exists calls, t_last. split; [exact H1|exact H2].
Defined.

Lemma getNodeReference_found : forall env s,
  (forall r, fst (getNodeReference env s) = Ok r ->
     exists id t nl n, VMID (sc_MachineStatus (st_scope s)) = Some id /\
       In (ListNodes t) (st_trace (snd (getNodeReference env s))) /\
       e_list_nodes env t = ROk nl /\ find_node id (nl_Items nl) = Some n /\
       contains (node_ProviderID n) id = true /\ r = node_ref n) /\
  (fst (getNodeReference env s) = Fail (Errorf NoNodeFound) ->
     exists id, VMID (sc_MachineStatus (st_scope s)) = Some id /\
       forall t, In (ListNodes t) (st_trace (snd (getNodeReference env s))) ->
         ~ In (ListNodes t) (st_trace s) ->
         exists nl, e_list_nodes env t = ROk nl /\
           Forall (fun m => contains (node_ProviderID m) id = false) (nl_Items nl)).
Proof.
  intros env [tr sc].
  destruct (getNodeReference_cases env {| st_trace := tr; st_scope := sc |}) as [H0 [H1 H2]].
  simpl in *.
  destruct (VMID (sc_MachineStatus sc)) as [id|] eqn:Hid;
    [|rewrite H0 by reflexivity; split; intros; discriminate].
  destruct (sc_ClusterConfig sc) as [k|] eqn:Hk;
    [|rewrite (H1 id) by reflexivity; split; intros; discriminate].
  destruct (e_core_client env k) as [e|] eqn:Hc.
  { unfold getNodeReference. mon. rewrite Hid, Hk, Hc. simpl. split; intros; discriminate. }
  destruct (e_page_fuel env) as [|f] eqn:Hf.
  { unfold getNodeReference. mon. rewrite Hid, Hk, Hc, Hf. simpl.
    cbv [node_loop]. simpl. split; intros; discriminate. }
  destruct (H2 id k eq_refl eq_refl Hc ltac:(discriminate)) as [calls [t_last [Hs [Hch Ho]]]].
  rewrite Hs, Ho. simpl. clear H0 H1 H2 Hs Ho. split.
  - intros r Hr. unfold page_outcome in Hr.
    destruct (e_list_nodes env t_last) as [nl|e] eqn:L; [|discriminate].
    destruct (find_node id (nl_Items nl)) as [n|] eqn:F; [|destruct (_ =? _); discriminate].
    injection Hr as <-. exists id, t_last, nl, n.
    apply find_node_first in F as F'. destruct F' as [before [after [_ [Cn _]]]].
    repeat split; auto. apply in_or_app. right.
    clear -Hch. induction Hch; [left; reflexivity|right; assumption].
  - intros Hn. exists id. split; [reflexivity|]. intros t Hin Hnot.
    apply in_app_or in Hin as [Hin|Hin]; [contradiction|].
    clear Hnot.
    induction Hch as [t'|t' nl t_last rest L F Cne Hch IH].
    + destruct Hin as [Heq|[]]. injection Heq as ->. unfold page_outcome in Hn.
      destruct (e_list_nodes env t) as [nl|e]; [|discriminate].
      exists nl. split; [reflexivity|].
      destruct (find_node id (nl_Items nl)) eqn:F; [discriminate|]. apply find_node_none, F.
    + destruct Hin as [Heq|Hin].
      * injection Heq as ->. exists nl. split; [exact L|]. apply find_node_none, F.
      * exact (IH Hn Hin).
Qed.

(** A resolved node reference is the identity of a listed node whose
    provider id contains the VM identifier, and it is the first such node
    of its page; a not-found error means that every page listed had no
    such node. *)
Theorem getNodeReference_sound : forall env s,
  (forall r, fst (getNodeReference env s) = Ok r ->
     exists id t nl n, VMID (sc_MachineStatus (st_scope s)) = Some id /\
       In (ListNodes t) (st_trace (snd (getNodeReference env s))) /\
       e_list_nodes env t = ROk nl /\ find_node id (nl_Items nl) = Some n /\
       contains (node_ProviderID n) id = true /\ r = node_ref n) /\
  (fst (getNodeReference env s) = Fail (Errorf NoNodeFound) ->
     exists id, VMID (sc_MachineStatus (st_scope s)) = Some id /\
       forall t, In (ListNodes t) (st_trace (snd (getNodeReference env s))) ->
         ~ In (ListNodes t) (st_trace s) ->
         exists nl, e_list_nodes env t = ROk nl /\
           Forall (fun m => contains (node_ProviderID m) id = false) (nl_Items nl)).
Proof. exact getNodeReference_found. Qed.

Lemma getNodeReference_sound_witness :
  exists id t nl n,
    e_list_nodes (test_env (ROk []) vm_not_found ext_found None None one_page) t = ROk nl /\
    find_node id (nl_Items nl) = Some n /\ contains (node_ProviderID n) id = true /\
    {| ref_Kind := "Node"; ref_APIVersion := "v1"; ref_Name := "node-1" |} = node_ref n.
Proof.
  destruct (getNodeReference_sound (test_env (ROk []) vm_not_found ext_found None None one_page)
              {| st_trace := []; st_scope := set_status (test_scope "cp-1" ControlPlane)
                                 {| VMID := Some "/subscriptions/s/vm-1"; VMState := Some "Succeeded" |} |})
    as [H _].
  destruct (H {| ref_Kind := "Node"; ref_APIVersion := "v1"; ref_Name := "node-1" |} eq_refl)
    as [id [t [nl [n [_ [_ [L [F [C R]]]]]]]]].
  exists id, t, nl, n. auto.
Defined.

(** ** Create *)

Lemma scan_control_plane_reads : forall env items s,
  exists calls, snd (scan_control_plane env items s) =
                {| st_trace := (st_trace s ++ calls)%list; st_scope := st_scope s |} /\
                forallb is_read_call calls = true.
Proof.
  intros env items; induction items as [|cm rest IH]; intros [tr sc].
  - exists []. rewrite app_nil_r. split; reflexivity.
  - simpl. destruct (IsControlPlaneMachine cm); simpl; [|apply IH].
    mon. destruct (e_vm_get env (mi_Name cm)) as [[vm|] [e|]]; simpl;
      try (eexists; split; [reflexivity|reflexivity]);
      destruct (e_ext_get env "startupScript" (mi_Name cm)) as [[[]|] [e'|]]; simpl;
      eexists; (split; [rewrite <- app_assoc; reflexivity|reflexivity]).
Qed.

Lemma isNodeJoin_reads : forall env s,
  exists calls, snd (isNodeJoin env s) =
                {| st_trace := (st_trace s ++ calls)%list; st_scope := st_scope s |} /\
                forallb is_read_call calls = true.
Proof.
  intros env [tr sc]. unfold isNodeJoin. mon.
  destruct (e_machines env) as [items|e]; simpl; [|eexists; split; reflexivity].
  destruct (m_SetLabel (sc_Machine sc) =? Node); simpl; [eexists; split; reflexivity|].
  destruct (m_SetLabel (sc_Machine sc) =? ControlPlane); simpl; [|eexists; split; reflexivity].
  destruct (scan_control_plane_reads env items
              {| st_trace := (tr ++ [ListMachines])%list; st_scope := sc |}) as [calls [H Hc]].
  exists (ListMachines :: calls). simpl in H. rewrite <- app_assoc in H.
  split; [exact H|exact Hc].
Qed.

Lemma checkControlPlaneMachines_trace : forall env s,
  exists calls, snd (checkControlPlaneMachines env s) =
                {| st_trace := (st_trace s ++ calls)%list; st_scope := st_scope s |} /\
                forallb (fun c => is_read_call c || is_token_call c) calls = true.
Proof.
  intros env s.
  destruct (isNodeJoin_reads env s) as [c1 [H1 Hr]].
  destruct (isNodeJoin env s) as [o s1] eqn:E. simpl in H1. subst s1.
  assert (Hr' : forallb (fun c => is_read_call c || is_token_call c) c1 = true).
  { rewrite forallb_forall in *. intros c Hin. rewrite (Hr c Hin). reflexivity. }
  unfold checkControlPlaneMachines. mon. rewrite E. simpl.
  destruct o as [[|]|e|]; simpl; try (exists c1; split; [reflexivity|exact Hr']).
  destruct (sc_ClusterConfig (st_scope s)) as [k|]; simpl; [|exists c1; split; [reflexivity|exact Hr']].
  exists (c1 ++ [CreateBootstrapToken k DefaultBootstrapTokenTTL])%list.
  rewrite forallb_app, Hr'. simpl.
  destruct (e_issue_token env k DefaultBootstrapTokenTTL); simpl;
    (split; [rewrite <- app_assoc; reflexivity|reflexivity]).
Qed.

Ltac split_matches :=
  repeat (simpl; match goal with
  | |- context [match ?x with Some _ => _ | None => _ end] => destruct x eqn:?
  | |- context [match ?x with ROk _ => _ | RErr _ => _ end] => destruct x eqn:?
  | |- context [if ?b then _ else _] => destruct b eqn:?
  end).

Lemma Create_success_trace : forall env st,
  fst (Create env st) = Ok tt ->
  let sc := st_scope st in
  let name := m_Name (sc_Machine sc) in
  let cname := sc_ClusterName sc in
  let cfg := sc_MachineConfig sc in
  exists c1 tok script nic,
    fst (checkControlPlaneMachines env st) = Ok tok /\
    forallb (fun c => is_read_call c || is_token_call c) c1 = true /\
    st_trace (snd (Create env st)) =
      (st_trace st ++ c1 ++
       [CreateNIC nic;
        CreateVM {| vms_Name := name; vms_NICName := name ++ "-nic";
                    vms_SSHKeyData := fst (e_b64decode env (SSHPublicKey cfg));
                    vms_Size := VMSize cfg; vms_OSDisk := OSDisk cfg; vms_Image := Image cfg |};
        CreateVMExt {| ext_Name := "startupScript"; ext_VMName := name;
                       ext_ScriptData := e_b64encode env script |}])%list /\
    e_startup_script env sc tok = ROk script /\
    nic_Name nic = name ++ "-nic" /\ nic_VnetName nic = e_vnet_name env cname /\
    ((m_SetLabel (sc_Machine sc) = Node /\
      nic_SubnetName nic = e_node_subnet_name env cname /\
      nic_PublicLoadBalancerName nic = "" /\ nic_InternalLoadBalancerName nic = "") \/
     (m_SetLabel (sc_Machine sc) = ControlPlane /\
      nic_SubnetName nic = e_cp_subnet_name env cname /\
      nic_PublicLoadBalancerName nic = e_public_lb_name env cname /\
      nic_InternalLoadBalancerName nic = e_internal_lb_name env cname /\ nic_NatRule nic = 0%Z)).
Proof.
  intros env st Hok sc name cname cfg.
  destruct (checkControlPlaneMachines_trace env st) as [c1 [Hs Hr]].
  destruct (checkControlPlaneMachines env st) as [o s1] eqn:E. simpl in Hs. subst s1.
  unfold Create in *. mon. rewrite E in *. simpl in *.
  destruct o as [tok|e|]; try discriminate Hok.
  exists c1, tok. subst sc name cname cfg. destruct st as [tr sc]. simpl in *.
  unfold create_resources in *. mon.
  destruct (m_SetLabel (sc_Machine sc) =? Node) eqn:Hn;
    [|destruct (m_SetLabel (sc_Machine sc) =? ControlPlane) eqn:Hc]; simpl in *;
    try discriminate Hok;
    (destruct (e_nic_create env _) eqn:Hnic; simpl in *; [discriminate Hok|]);
    (destruct (e_vm_create env _) eqn:Hvm; simpl in *; [discriminate Hok|]);
    (destruct (e_startup_script env sc tok) as [script|e] eqn:Hsc; simpl in *; [|discriminate Hok]);
    exists script; eexists; (split; [reflexivity|]); (split; [exact Hr|]);
    (split; [rewrite <- !app_assoc; reflexivity|]); (split; [reflexivity|]);
    (split; [reflexivity|]); (split; [reflexivity|]).
  - left. apply String.eqb_eq in Hn. repeat split; auto.
  - right. apply String.eqb_eq in Hc. repeat split; auto.
Qed.

(** A successful Create issues, after the control-plane check, exactly
    three calls: the network interface named [<machine>-nic] in the
    cluster's virtual network, bound to the node subnet for a [Node] and to
    the control-plane subnet and both load balancers (rule 0) for a
    [ControlPlane]; then the VM of the machine's name on that interface,
    with the decoded SSH key (whatever the decoding reported), size, OS disk
    and image of the spec; then the [startupScript] extension of that VM,
    carrying the base64 encoding of the startup script rendered with the
    token returned by the check. *)
Theorem Create_success_calls : forall env st,
  fst (Create env st) = Ok tt ->
  let sc := st_scope st in
  let name := m_Name (sc_Machine sc) in
  let cname := sc_ClusterName sc in
  let cfg := sc_MachineConfig sc in
  exists c1 tok script nic,
    fst (checkControlPlaneMachines env st) = Ok tok /\
    forallb (fun c => is_read_call c || is_token_call c) c1 = true /\
    st_trace (snd (Create env st)) =
      (st_trace st ++ c1 ++
       [CreateNIC nic;
        CreateVM {| vms_Name := name; vms_NICName := name ++ "-nic";
                    vms_SSHKeyData := fst (e_b64decode env (SSHPublicKey cfg));
                    vms_Size := VMSize cfg; vms_OSDisk := OSDisk cfg; vms_Image := Image cfg |};
        CreateVMExt {| ext_Name := "startupScript"; ext_VMName := name;
                       ext_ScriptData := e_b64encode env script |}])%list /\
    e_startup_script env sc tok = ROk script /\
    nic_Name nic = name ++ "-nic" /\ nic_VnetName nic = e_vnet_name env cname /\
    ((m_SetLabel (sc_Machine sc) = Node /\
      nic_SubnetName nic = e_node_subnet_name env cname /\
      nic_PublicLoadBalancerName nic = "" /\ nic_InternalLoadBalancerName nic = "") \/
     (m_SetLabel (sc_Machine sc) = ControlPlane /\
      nic_SubnetName nic = e_cp_subnet_name env cname /\
      nic_PublicLoadBalancerName nic = e_public_lb_name env cname /\
      nic_InternalLoadBalancerName nic = e_internal_lb_name env cname /\ nic_NatRule nic = 0%Z)).
Proof. exact Create_success_trace. Qed.

Lemma Create_success_calls_witness :
  exists c1 tok script nic,
    st_trace (snd (Create (test_env (ROk []) vm_not_found ext_found None None one_page)
                          (test_st "worker-1" Node))) =
      (c1 ++ [CreateNIC nic;
              CreateVM {| vms_Name := "worker-1"; vms_NICName := "worker-1-nic";
                          vms_SSHKeyData := "c3NoLXJzYQ=="; vms_Size := "Standard_B2ms";
                          vms_OSDisk := "Linux"; vms_Image := "ubuntu" |};
              CreateVMExt {| ext_Name := "startupScript"; ext_VMName := "worker-1";
                             ext_ScriptData := script |}])%list /\
    fst (checkControlPlaneMachines (test_env (ROk []) vm_not_found ext_found None None one_page)
                                   (test_st "worker-1" Node)) = Ok tok.
Proof.
  destruct (Create_success_calls (test_env (ROk []) vm_not_found ext_found None None one_page)
              (test_st "worker-1" Node) eq_refl)
    as [c1 [tok [script [nic [Hchk [_ [Htr _]]]]]]].
  exists c1, tok, script, nic. split; [exact Htr|exact Hchk].
Defined.



Lemma ann_lookup_filter : forall k k0 l, k <> k0 ->
  ann_lookup k (filter (fun kv => negb (String.eqb (fst kv) k0)) l) = ann_lookup k l.
Proof.
  intros k k0 l Hne; induction l as [|[k' v] rest IH]; [reflexivity|]. simpl.
  destruct (String.eqb_spec k' k0) as [->|Hk0]; simpl.
  - apply String.eqb_neq in Hne. rewrite String.eqb_sym, Hne. exact IH.
  - destruct (k' =? k); [reflexivity|exact IH].
Qed.

Lemma ann_lookup_map_set : forall k k0 v l,
  ann_lookup k (map_set k0 v l) = if String.eqb k0 k then Some v else ann_lookup k l.
Proof.
  intros k k0 v l. unfold map_set. simpl.
  destruct (String.eqb_spec k0 k) as [->|Hne]; [reflexivity|].
  apply ann_lookup_filter. congruence.
Qed.

Lemma Create_success_scope : forall env st,
  fst (Create env st) = Ok tt ->
  let m := sc_Machine (st_scope st) in
  let old := match m_Annotations m with None => [] | Some a => a end in
  exists ann,
    st_scope (snd (Create env st)) = set_machine (st_scope st) (with_annotations m (Some ann)) /\
    ann_lookup "cluster-api-provider-azure" ann = Some "true" /\
    (forall k, k <> "cluster-api-provider-azure" -> ann_lookup k ann = ann_lookup k old).
Proof.
  intros env st Hok m old.
  destruct (checkControlPlaneMachines_trace env st) as [c1 [Hs _]].
  destruct (checkControlPlaneMachines env st) as [o s1] eqn:E. simpl in Hs. subst s1.
  unfold Create in *. mon. rewrite E in *. simpl in *.
  destruct o as [tok|e|]; try discriminate Hok.
  subst m old. destruct st as [tr sc]. simpl in *. unfold create_resources in *. mon.
  destruct (m_SetLabel (sc_Machine sc) =? Node);
    [|destruct (m_SetLabel (sc_Machine sc) =? ControlPlane)]; simpl in *;
    try discriminate Hok;
    (destruct (e_nic_create env _); simpl in *; [discriminate Hok|]);
    (destruct (e_vm_create env _); simpl in *; [discriminate Hok|]);
    (destruct (e_startup_script env sc tok); simpl in *; [|discriminate Hok]);
    eexists; (split; [reflexivity|]);
    (split; [rewrite ann_lookup_map_set; reflexivity|]);
    intros k Hk; rewrite ann_lookup_map_set;
    apply String.eqb_neq in Hk; rewrite String.eqb_sym, Hk; reflexivity.
Qed.

(** A successful Create changes the machine scope only by setting the
    annotation [cluster-api-provider-azure] to ["true"] (creating the map
    when it is nil) and keeps every other annotation. *)
Theorem Create_annotation : forall env st,
  fst (Create env st) = Ok tt ->
  let m := sc_Machine (st_scope st) in
  let old := match m_Annotations m with None => [] | Some a => a end in
  exists ann,
    st_scope (snd (Create env st)) = set_machine (st_scope st) (with_annotations m (Some ann)) /\
    ann_lookup "cluster-api-provider-azure" ann = Some "true" /\
    (forall k, k <> "cluster-api-provider-azure" -> ann_lookup k ann = ann_lookup k old).
Proof. exact Create_success_scope. Qed.

Lemma Create_annotation_witness :
  exists ann,
    m_Annotations (sc_Machine (st_scope (snd (Create (test_env (ROk []) vm_not_found ext_found
                                                                None None one_page)
                                                      (test_st "worker-1" Node))))) = Some ann /\
    ann_lookup "cluster-api-provider-azure" ann = Some "true".
Proof.
  destruct (Create_annotation (test_env (ROk []) vm_not_found ext_found None None one_page)
              (test_st "worker-1" Node) eq_refl) as [ann [Hs [Hl _]]].
  exists ann. rewrite Hs. split; [reflexivity|exact Hl].
Defined.

(** ** Read-only operations *)

Lemma ret_read_only : forall A (a : A), read_only (ret a).
Proof. intros A a s. exists []. rewrite app_nil_r. split; reflexivity. Qed.

Lemma fail_read_only : forall A e, read_only (A := A) (fail e).
Proof. intros A e s. exists []. rewrite app_nil_r. split; reflexivity. Qed.

Lemma get_scope_read_only : read_only get_scope.
Proof. intros s. exists []. rewrite app_nil_r. split; reflexivity. Qed.

Lemma put_scope_read_only : forall sc, read_only (put_scope sc).
Proof. intros sc s. exists []. rewrite app_nil_r. split; reflexivity. Qed.

Lemma ext_call_read_only : forall A c (r : A), is_read_call c = true -> read_only (ext_call c r).
Proof. intros A c r Hc s. exists [c]. split; [reflexivity|simpl; rewrite Hc; reflexivity]. Qed.

Lemma bind_read_only : forall A B (m : M A) (f : A -> M B),
  read_only m -> (forall a, read_only (f a)) -> read_only (bind m f).
Proof.
  intros A B m f Hm Hf s. unfold bind.
  destruct (Hm s) as [c1 [H1 R1]]. destruct (m s) as [[a|e|] s1]; simpl in *;
    [|exists c1; split; assumption ..].
  destruct (Hf a s1) as [c2 [H2 R2]]. exists (c1 ++ c2)%list.
  rewrite H2, H1, <- app_assoc, forallb_app, R1, R2. split; reflexivity.
Qed.

Lemma catch_read_only : forall A (m : M A) h,
  read_only m -> (forall e, read_only (h e)) -> read_only (catch m h).
Proof.
  intros A m h Hm Hh s. unfold catch.
  destruct (Hm s) as [c1 [H1 R1]]. destruct (m s) as [[a|e|] s1]; simpl in *;
    [exists c1; split; assumption| |exists c1; split; assumption].
  destruct (Hh e s1) as [c2 [H2 R2]]. exists (c1 ++ c2)%list.
  rewrite H2, H1, <- app_assoc, forallb_app, R1, R2. split; reflexivity.
Qed.

Ltac read_only_steps :=
  repeat (cbv beta zeta in *; match goal with
  | |- read_only (bind _ _) => apply bind_read_only; [|intro]
  | |- read_only (catch _ _) => apply catch_read_only; [|intro]
  | |- read_only (ret _) => apply ret_read_only
  | |- read_only (fail _) => apply fail_read_only
  | |- read_only get_scope => apply get_scope_read_only
  | |- read_only (put_scope _) => apply put_scope_read_only
  | |- read_only (ext_call _ _) => apply ext_call_read_only; reflexivity
  | |- read_only (match ?x with _ => _ end) => destruct x
  | |- read_only (if ?b then _ else _) => destruct b
  end).

Lemma node_loop_read_only : forall env f id t, read_only (node_loop env f id t).
Proof.
  intros env f; induction f as [|f IH]; intros id t.
  - intros s. exists []. rewrite app_nil_r. split; reflexivity.
  - rewrite node_loop_S. read_only_steps. apply IH.
Qed.

Lemma getNodeReference_read_only : forall env, read_only (getNodeReference env).
Proof. intros env. unfold getNodeReference. read_only_steps. apply node_loop_read_only. Qed.

Lemma isVMExists_read_only : forall env, read_only (isVMExists env).
Proof. intros env. unfold isVMExists. read_only_steps. Qed.

(** Exists only reads: every external call it issues is a lookup or a
    listing ([is_read_call]); it never creates or deletes a resource. *)
Theorem Exists_read_only : forall env st,
  exists calls, st_trace (snd (Exists env st)) = (st_trace st ++ calls)%list /\
    forallb is_read_call calls = true.
Proof.
  intros env st. revert st. change (read_only (Exists env)).
  unfold Exists. read_only_steps; first [apply isVMExists_read_only | apply getNodeReference_read_only].
Qed.

(** ** Update *)

(** Update issues exactly one external call, the lookup of the machine's
    VM, and never changes the scope; it succeeds exactly when that VM is
    found with the desired size, and any lookup error (not-found included)
    is reported as a failed VM lookup. *)
Theorem Update_outcome : forall env st,
  let name := m_Name (sc_Machine (st_scope st)) in
  snd (Update env st) = {| st_trace := (st_trace st ++ [GetVM name])%list; st_scope := st_scope st |} /\
  (fst (Update env st) = Ok tt <->
     exists vm, e_vm_get env name = (Some vm, None) /\
                VMSize (sc_MachineConfig (st_scope st)) = cvm_VMSize vm) /\
  (forall x e, e_vm_get env name = (x, Some e) -> fst (Update env st) = Fail (Errorf (GetVMFailed e))).
Proof.
  intros env [tr sc] name. subst name. simpl. unfold Update. mon.
  destruct (e_vm_get env (m_Name (sc_Machine sc))) as [[vm|] [e|]] eqn:Ev; simpl.
  - repeat split; [discriminate|intros [vm' [H _]]; discriminate H|].
    intros x e' H. injection H as _ ->. reflexivity.
  - unfold isMachineOutdated. simpl.
    destruct (String.eqb_spec (VMSize (sc_MachineConfig sc)) (cvm_VMSize vm)) as [Hs|Hs]; simpl;
      repeat split; try discriminate; try (intros; discriminate).
    + intros _. exists vm. split; [reflexivity|exact Hs].
    + intros [vm' [H Hs']]. injection H as <-. contradiction.
  - repeat split; [discriminate|intros [vm' [H _]]; discriminate H|].
    intros x e' H. injection H as _ ->. reflexivity.
  - repeat split; [discriminate|intros [vm' [H _]]; discriminate H|].
    intros x e' H. discriminate H.
Qed.

(** ** Machine fields written by Exists *)

(** Exists changes the machine only on a [true] answer or while the node
    lookup runs (it writes the provider id before that lookup), and then
    only its provider id and node reference: an absent or empty provider id is
    back-filled as [azure:////] followed by the VM identifier just
    recorded, a non-empty one is kept. *)
Theorem Exists_machine_effect : forall env st,
  let m := sc_Machine (st_scope st) in
  let sc' := st_scope (snd (Exists env st)) in
  let m' := sc_Machine sc' in
  m_Name m' = m_Name m /\ m_SetLabel m' = m_SetLabel m /\ m_Annotations m' = m_Annotations m /\
  (fst (Exists env st) <> Ok true -> fst (Exists env st) <> Diverge -> m' = m) /\
  (fst (Exists env st) = Ok true ->
     exists id, VMID (sc_MachineStatus sc') = Some id /\
       m_ProviderID m' = match m_ProviderID m with
                         | Some p => if String.eqb p "" then Some ("azure:////" ++ id) else Some p
                         | None => Some ("azure:////" ++ id)
                         end).
Proof.
  intros env [tr sc]. cbv zeta. simpl. unfold Exists, isVMExists. mon.
  destruct (e_vm_get env (m_Name (sc_Machine sc))) as [[vm|] [e|]]; simpl;
    [|destruct (e_ext_get env "startupScript" (m_Name (sc_Machine sc))) as [[[]|] [e'|]]; simpl;
        exists_cases env| |];
    repeat split; try reflexivity;
    try (intros H; first [discriminate H | contradiction H; reflexivity | reflexivity]);
    try (intros _; eexists; split; [reflexivity|first [reflexivity|assumption]]);
    intros _ H; contradiction H; reflexivity.
Qed.

(** A node reference set by Exists (it sets one only while it is nil) is
    the identity of a node listed during that call whose provider id
    contains the VM identifier just recorded. *)
Theorem Exists_nodeRef_source : forall env st r,
  m_NodeRef (sc_Machine (st_scope st)) = None ->
  m_NodeRef (sc_Machine (st_scope (snd (Exists env st)))) = Some r ->
  exists id t nl n,
    VMID (sc_MachineStatus (st_scope (snd (Exists env st)))) = Some id /\
    In (ListNodes t) (st_trace (snd (Exists env st))) /\
    e_list_nodes env t = ROk nl /\ find_node id (nl_Items nl) = Some n /\ r = node_ref n.
Proof.
  intros env [tr sc] r Hnone. simpl in Hnone. unfold Exists, isVMExists. mon.
  destruct (e_vm_get env (m_Name (sc_Machine sc))) as [[vm|] [e|]]; simpl; try congruence.
  destruct (e_ext_get env "startupScript" (m_Name (sc_Machine sc))) as [[[]|] [e|]]; simpl;
    try congruence;
    repeat (simpl; match goal with
    | |- context [getNodeReference env ?s] =>
        let G := fresh "G" in let Hg := fresh "Hg" in
        destruct (getNodeReference_found env s) as [G _];
        pose proof (getNodeReference_scope env s) as Hg;
        destruct (getNodeReference env s) as [[? | ? | ] [? ?]]; simpl in Hg, G; subst
    | |- context [match ?x with Some _ => _ | None => _ end] => destruct x eqn:?
    | |- context [if ?b then _ else _] => destruct b eqn:?
    end); simpl; try congruence;
    intros Hr; injection Hr as <-;
    match goal with G : forall r, Ok ?a = Ok r -> _ |- _ =>
      destruct (G a eq_refl) as [id [t [nl [n [Hid [Hin [L [F [_ R]]]]]]]]] end;
    exists id, t, nl, n; simpl in *; repeat split; assumption.
Qed.

Lemma Exists_nodeRef_source_witness :
  exists id t nl n,
    e_list_nodes (test_env (ROk []) (vm_found "Succeeded") ext_found None None one_page) t = ROk nl /\
    find_node id (nl_Items nl) = Some n /\
    {| ref_Kind := "Node"; ref_APIVersion := "v1"; ref_Name := "node-1" |} = node_ref n.
Proof.
  destruct (Exists_nodeRef_source (test_env (ROk []) (vm_found "Succeeded") ext_found None None one_page)
              (test_st "cp-1" ControlPlane)
              {| ref_Kind := "Node"; ref_APIVersion := "v1"; ref_Name := "node-1" |}
              eq_refl eq_refl)
    as [id [t [nl [n [_ [_ [L [F R]]]]]]]].
  exists id, t, nl, n. split; [exact L|split; [exact F|exact R]].
Defined.

(** ** Create then Delete *)

(** After a successful Create, a Delete of the same machine whose VM
    deletion succeeds deletes the VM Create created and a network
    interface with the name and virtual network of the one Create
    created. *)
Theorem Create_Delete_same_resources : forall env st,
  fst (Create env st) = Ok tt ->
  e_vm_delete env (m_Name (sc_Machine (st_scope st))) = None ->
  let st1 := snd (Create env st) in
  let st2 := snd (Delete env st1) in
  exists vm nic nic',
    In (CreateNIC nic) (st_trace st1) /\ In (CreateVM vm) (st_trace st1) /\
    st_trace st2 = (st_trace st1 ++ [DeleteVM (vms_Name vm); DeleteNIC nic'])%list /\
    nic_Name nic' = nic_Name nic /\ nic_VnetName nic' = nic_VnetName nic.
Proof.
  intros env st Hok Hdel st1 st2.
  destruct (Create_success_trace env st Hok)
    as [c1 [tok [script [nic [_ [_ [Htr [_ [Hnn [Hnv _]]]]]]]]]].
  destruct (Create_success_scope env st Hok) as [ann [Hsc _]].
  cbv zeta in *.
  eexists; exists nic; eexists. split; [|split; [|split]].
  - subst st1. rewrite Htr. apply in_or_app. right. apply in_or_app. right. left. reflexivity.
  - subst st1. rewrite Htr. apply in_or_app. right. apply in_or_app. right. right. left. reflexivity.
  - subst st2 st1. destruct (snd (Create env st)) as [tr1 sc1] eqn:E1. simpl in Hsc. subst sc1.
    unfold Delete. mon. simpl. rewrite Hdel. simpl.
    destruct (e_nic_delete env _); simpl; rewrite <- app_assoc; reflexivity.
  - simpl. split; [rewrite Hnn|rewrite Hnv]; try rewrite Hsc; reflexivity.
Qed.

Lemma Create_Delete_same_resources_witness :
  exists vm nic nic',
    In (CreateVM vm) (st_trace (snd (Create (test_env (ROk []) vm_not_found ext_found None None one_page)
                                            (test_st "worker-1" Node)))) /\
    In (CreateNIC nic) (st_trace (snd (Create (test_env (ROk []) vm_not_found ext_found None None one_page)
                                              (test_st "worker-1" Node)))) /\
    nic_Name nic' = nic_Name nic.
Proof.
  destruct (Create_Delete_same_resources (test_env (ROk []) vm_not_found ext_found None None one_page)
              (test_st "worker-1" Node) eq_refl eq_refl)
    as [vm [nic [nic' [Hn [Hv [_ [Hname _]]]]]]].
  exists vm, nic, nic'. split; [exact Hv|split; [exact Hn|exact Hname]].
Defined.

(** ** Error results *)

(** Exists fails only on a VM lookup error, an extension lookup error, a
    nil VM payload or a nil VM identifier; errors of the node lookup never
    surface. *)
Theorem Exists_errors : forall env st e,
  fst (Exists env st) = Fail e ->
  (exists x, e = Wrap "Failed to get vm" (Ext x)) \/
  (exists x, e = Wrap "failed to get vm extension" (Ext x)) \/
  e = Errorf IncorrectVMInterface \/ e = Errorf NilDereference.
Proof.
  intros env [tr sc] e. unfold Exists, isVMExists. mon.
  destruct (e_vm_get env (m_Name (sc_Machine sc))) as [[vm|] [x|]]; simpl;
    try (intros H; injection H as <-; eauto; fail); try discriminate.
  destruct (e_ext_get env "startupScript" (m_Name (sc_Machine sc))) as [[[]|] [x|]]; simpl;
    try (intros H; injection H as <-; eauto; fail); try discriminate;
    exists_cases env; try discriminate; intros H; injection H as <-; eauto.
Qed.

Lemma Exists_errors_witness :
  exists x, Wrap "Failed to get vm" (Ext "InternalError") = Wrap "Failed to get vm" (Ext x).
Proof.
  destruct (Exists_errors
              (test_env (ROk []) (fun _ => (Some (ex_vm "Succeeded"), Some "InternalError"))
                        ext_found None None one_page)
              (test_st "cp-1" ControlPlane) (Wrap "Failed to get vm" (Ext "InternalError"))
              eq_refl) as [H|[[x H]|[H|H]]]; [exact H|discriminate H ..].
Defined.

(** Create fails only with a wrapped error of the control-plane check or a
    wrapped error of the network-interface creation, the VM creation or the
    startup-script rendering; in particular the label check of the
    network-interface step never fails, as the control-plane check has
    already rejected unknown labels. *)
Theorem Create_errors : forall env st e,
  fst (Create env st) = Fail e ->
  (exists i, e = Wrap "failed to check control plane machines in cluster" i) \/
  (exists x, e = Wrap "Unable to create VM network interface" (Ext x)) \/
  (exists x, e = Wrap "failed to create or get machine" (Ext x)) \/
  (exists x, e = Wrap "failed to get vm startup script" (Ext x)).
Proof.
  intros env st e.
  destruct (checkControlPlaneMachines_frame env st) as [Hs Hl].
  destruct (checkControlPlaneMachines env st) as [o s1] eqn:E. simpl in Hs, Hl.
  unfold Create. mon. rewrite E. simpl.
  destruct o as [tok|e'|]; simpl; [|intros H; injection H as <-; eauto|discriminate].
  destruct (Hl tok eq_refl) as [Hn|Hc]; destruct s1 as [tr sc]; simpl in Hs; subst sc;
    unfold create_resources; mon;
    [rewrite Hn|rewrite Hc]; simpl;
    (destruct (e_nic_create env _); simpl; [intros H; injection H as <-; eauto|]);
    (destruct (e_vm_create env _); simpl; [intros H; injection H as <-; eauto|]);
    (destruct (e_startup_script env _ tok); simpl; [discriminate|intros H; injection H as <-; eauto]).
Qed.

Lemma Create_errors_witness :
  exists i, Wrap "failed to check control plane machines in cluster"
              (Wrap "failed to determine whether machine should join cluster"
                 (Wrap "failed to retrieve machines in cluster" (Ext "forbidden")))
            = Wrap "failed to check control plane machines in cluster" i.
Proof.
  destruct (Create_errors (test_env (RErr "forbidden") vm_not_found ext_found None None one_page)
              (test_st "worker-1" Node)
              (Wrap "failed to check control plane machines in cluster"
                 (Wrap "failed to determine whether machine should join cluster"
                    (Wrap "failed to retrieve machines in cluster" (Ext "forbidden"))))
              eq_refl) as [H|[[x H]|[[x H]|[x H]]]]; [exact H|discriminate H ..].
Defined.

(** Once the VM deletion succeeded, Delete deletes the network interface
    [<machine>-nic] of the cluster's virtual network and returns that
    deletion's error, wrapped, or success. *)
Theorem Delete_nic_result : forall env st,
  let sc := st_scope st in
  let name := m_Name (sc_Machine sc) in
  exists nic, nic_Name nic = name ++ "-nic" /\ nic_VnetName nic = e_vnet_name env (sc_ClusterName sc) /\
    (e_vm_delete env name = None ->
     fst (Delete env st) = match e_nic_delete env nic with
                           | Some e => Fail (Wrap "Unable to delete network interface" (Ext e))
                           | None => Ok tt
                           end).
Proof.
  intros env [tr sc]. cbv zeta. simpl.
  exists {| nic_Name := m_Name (sc_Machine sc) ++ "-nic";
            nic_VnetName := e_vnet_name env (sc_ClusterName sc);
            nic_SubnetName := ""; nic_PublicLoadBalancerName := "";
            nic_InternalLoadBalancerName := ""; nic_NatRule := 0 |}.
  split; [|split]; [reflexivity|reflexivity|].
  intros Hd. unfold Delete. mon. rewrite Hd. simpl.
  destruct (e_nic_delete env _); reflexivity.
Qed.
